(** * EstantePDF: the library controller of [src/App.tsx] and the PDF factory
    of [src/services/pdfFactory.ts], embedded in Rocq.

    The controller is a React component.  Its [useState] cells become the
    record [AppState]; every handler becomes a computation in a small
    state-and-exception monad over a [World] that holds the React state, the
    document store, the object-URL registry, the timer queue and the trace of
    calls made to the platform.  The storage service and the jsPDF library
    are interfaces ([StorageService], [JsPDF]): the controller is verified
    against any implementation of them.

    A handler runs from its first statement to its last with no other handler
    interleaved at an [await]; what the platform answers on the way (the
    UUID, the answer to [confirm], the outcome of [window.open]) is the
    handler's [Env], and [Date.now()] reads the clock of the [World].  The
    callback of a [FileReader] is not part of the handler that starts the
    read: it runs in a later turn, when the read ends. *)

From Stdlib Require Import List ZArith NArith Lia Bool String Ascii.
From Stdlib Require Import Permutation Sorted.
Import ListNotations.

Set Implicit Arguments.

(* ================================================================= *)
(** ** JavaScript strings *)

(** A JavaScript string is a sequence of UTF-16 code units. *)
Definition jsstring := list N.

Module JS.

(** ASCII literals of the source, as code units. *)
Definition lit (s : string) : jsstring :=
  map N_of_ascii (list_ascii_of_string s).

Fixpoint eqb (a b : jsstring) : bool :=
  match a, b with
  | [], [] => true
  | x :: a', y :: b' => N.eqb x y && eqb a' b'
  | _, _ => false
  end.

(** ToBoolean on a string: only the empty string is falsy. *)
Definition truthy (s : jsstring) : bool :=
  match s with
  | [] => false
  | _ :: _ => true
  end.

(** [a || b] on strings. *)
Definition or (a b : jsstring) : jsstring :=
  if truthy a then a else b.

(** [s || undefined] on a [string | null] cell: [null] and the empty string
    both give [undefined]. *)
Definition or_undefined (s : option jsstring) : option jsstring :=
  match s with
  | Some x => if truthy x then Some x else None
  | None => None
  end.

(** ECMAScript WhiteSpace and LineTerminator code points (all of them lie in
    the Basic Multilingual Plane, so each is one code unit). *)
Definition isWhiteSpace (c : N) : bool :=
  (* TAB, LF, VT, FF, CR *)
  ((9 <=? c) && (c <=? 13)
   (* SPACE, NO-BREAK SPACE, OGHAM SPACE MARK *)
   || (c =? 32) || (c =? 160) || (c =? 5760)
   (* EN QUAD .. HAIR SPACE *)
   || ((8192 <=? c) && (c <=? 8202))
   (* LINE SEPARATOR, PARAGRAPH SEPARATOR, NARROW NO-BREAK SPACE *)
   || (c =? 8232) || (c =? 8233) || (c =? 8239)
   (* MEDIUM MATHEMATICAL SPACE, IDEOGRAPHIC SPACE, ZERO WIDTH NO-BREAK SPACE *)
   || (c =? 8287) || (c =? 12288) || (c =? 65279))%N.

Fixpoint trimStart (s : jsstring) : jsstring :=
  match s with
  | [] => []
  | c :: s' => if isWhiteSpace c then trimStart s' else s
  end.

Definition trimEnd (s : jsstring) : jsstring :=
  rev (trimStart (rev s)).

(** [String.prototype.trim]. *)
Definition trim (s : jsstring) : jsstring :=
  trimEnd (trimStart s).

(** [pat] is a prefix of [s]. *)
Fixpoint startsWith (pat s : jsstring) : bool :=
  match pat, s with
  | [], _ => true
  | _ :: _, [] => false
  | p :: pat', c :: s' => N.eqb p c && startsWith pat' s'
  end.

(** [String.prototype.replace] with a string pattern and a replacement that
    holds no [$]: the first match, scanning from the left, is replaced and the
    rest of the string is copied. *)
Fixpoint replace (pat rep s : jsstring) : jsstring :=
  if startsWith pat s then rep ++ skipn (List.length pat) s
  else match s with
       | [] => []
       | c :: s' => c :: replace pat rep s'
       end.

(** [Array.prototype.sort] with a comparator: a stable sort (ECMAScript 2019),
    here by insertion from the right.  [cmp a b <= 0] keeps [a] before [b]. *)
Section Sort.
Variable A : Type.
Variable cmp : A -> A -> Z.

Fixpoint insert (x : A) (l : list A) : list A :=
  match l with
  | [] => [x]
  | y :: l' => if (cmp x y <=? 0)%Z then x :: l else y :: insert x l'
  end.

Fixpoint sort (l : list A) : list A :=
  match l with
  | [] => []
  | x :: l' => insert x (sort l')
  end.
End Sort.

End JS.

(* ================================================================= *)
(** ** Data model ([src/types.ts] and the File API) *)

Definition ArrayBuffer := list Byte.byte.

Definition byteLength (b : ArrayBuffer) : Z := Z.of_nat (List.length b).

(** The failures of section 7 of the specification, and the rejection of
    [Blob.arrayBuffer()]. *)
Inductive Error : Type :=
| StorageUnavailable
| StorageQuotaExceeded
| UnsupportedContent
| NotReadable.

Inductive result (A : Type) : Type :=
| Ok (a : A)
| Throw (e : Error).
Arguments Ok {A} a.
Arguments Throw {A} e.

(** [interface PDFDocument]. *)
Record PDFDocument : Type := mkPDFDocument {
  id : jsstring;
  name : jsstring;
  description : option jsstring;
  size : Z;
  type : jsstring;
  data : ArrayBuffer;
  coverImage : option jsstring;
  addedAt : Z
}.

(** A [File] of the browser: what the controller reads of it.  [arrayBuffer]
    is the outcome of the promise [file.arrayBuffer()]. *)
Record File : Type := mkFile {
  file_name : jsstring;
  file_size : Z;
  file_type : jsstring;
  file_arrayBuffer : result ArrayBuffer
}.


Inductive ViewMode : Type := library | create.

(** The [useState] cells of [App]. *)
Record AppState : Type := mkAppState {
  documents : list PDFDocument;
  viewMode : ViewMode;
  darkMode : bool;
  creatorTitle : jsstring;
  creatorContent : jsstring;
  creatorCover : option jsstring;
  showUploadModal : bool;
  uploadFile : option File;
  uploadCover : option jsstring;
  uploadName : jsstring;
  isProcessing : bool
}.

(** The initial values passed to [useState]. *)
Definition initialState : AppState :=
  {| documents := []; viewMode := library; darkMode := false;
     creatorTitle := []; creatorContent := []; creatorCover := None;
     showUploadModal := false; uploadFile := None; uploadCover := None;
     uploadName := []; isProcessing := false |}.

Definition setDocuments (v : list PDFDocument) (s : AppState) : AppState :=
  mkAppState v (viewMode s) (darkMode s) (creatorTitle s) (creatorContent s)
    (creatorCover s) (showUploadModal s) (uploadFile s) (uploadCover s)
    (uploadName s) (isProcessing s).

Definition setViewMode (v : ViewMode) (s : AppState) : AppState :=
  mkAppState (documents s) v (darkMode s) (creatorTitle s) (creatorContent s)
    (creatorCover s) (showUploadModal s) (uploadFile s) (uploadCover s)
    (uploadName s) (isProcessing s).

Definition setCreatorTitle (v : jsstring) (s : AppState) : AppState :=
  mkAppState (documents s) (viewMode s) (darkMode s) v (creatorContent s)
    (creatorCover s) (showUploadModal s) (uploadFile s) (uploadCover s)
    (uploadName s) (isProcessing s).

Definition setCreatorContent (v : jsstring) (s : AppState) : AppState :=
  mkAppState (documents s) (viewMode s) (darkMode s) (creatorTitle s) v
    (creatorCover s) (showUploadModal s) (uploadFile s) (uploadCover s)
    (uploadName s) (isProcessing s).

Definition setCreatorCover (v : option jsstring) (s : AppState) : AppState :=
  mkAppState (documents s) (viewMode s) (darkMode s) (creatorTitle s)
    (creatorContent s) v (showUploadModal s) (uploadFile s) (uploadCover s)
    (uploadName s) (isProcessing s).

Definition setShowUploadModal (v : bool) (s : AppState) : AppState :=
  mkAppState (documents s) (viewMode s) (darkMode s) (creatorTitle s)
    (creatorContent s) (creatorCover s) v (uploadFile s) (uploadCover s)
    (uploadName s) (isProcessing s).

Definition setUploadFile (v : option File) (s : AppState) : AppState :=
  mkAppState (documents s) (viewMode s) (darkMode s) (creatorTitle s)
    (creatorContent s) (creatorCover s) (showUploadModal s) v (uploadCover s)
    (uploadName s) (isProcessing s).

Definition setUploadCover (v : option jsstring) (s : AppState) : AppState :=
  mkAppState (documents s) (viewMode s) (darkMode s) (creatorTitle s)
    (creatorContent s) (creatorCover s) (showUploadModal s) (uploadFile s) v
    (uploadName s) (isProcessing s).

Definition setUploadName (v : jsstring) (s : AppState) : AppState :=
  mkAppState (documents s) (viewMode s) (darkMode s) (creatorTitle s)
    (creatorContent s) (creatorCover s) (showUploadModal s) (uploadFile s)
    (uploadCover s) v (isProcessing s).

Definition setIsProcessing (v : bool) (s : AppState) : AppState :=
  mkAppState (documents s) (viewMode s) (darkMode s) (creatorTitle s)
    (creatorContent s) (creatorCover s) (showUploadModal s) (uploadFile s)
    (uploadCover s) (uploadName s) v.

(* ================================================================= *)
(** ** The collaborators of the controller *)

(** [src/services/storage.ts] is imported by [App.tsx] as [Storage]; the
    controller uses three of its functions.  A failed call leaves the store as
    it was (section 5 of the specification: never partially applied). *)
Class StorageService : Type := {
  Store : Type;
  getDocuments : Store -> result (list PDFDocument);
  saveDocument : PDFDocument -> Store -> result Store;
  deleteDocument : jsstring -> Store -> result Store
}.

(** The part of the jsPDF library that [createPDF] calls.  A [jsPDF] object
    is a mutable builder: each method is a transformer of [Doc].  The
    constructor draws the creation date and the file identifier from the
    environment: that draw is [Ambient].  Any call may throw. *)
Class JsPDF : Type := {
  Doc : Type;
  Ambient : Type;
  jsPDF_new : Ambient -> jsstring -> jsstring -> jsstring -> result Doc;
  jsPDF_setFont : jsstring -> jsstring -> Doc -> result Doc;
  jsPDF_setProperties : jsstring -> jsstring -> Doc -> result Doc;
  jsPDF_setFontSize : Z -> Doc -> result Doc;
  jsPDF_splitTextToSize : jsstring -> Z -> Doc -> result (list jsstring);
  jsPDF_text : list jsstring -> Z -> Z -> Doc -> result Doc;
  jsPDF_output : jsstring -> Doc -> result ArrayBuffer
}.

(** Sequencing of calls that may throw. *)
Definition rbind {A B : Type} (r : result A) (k : A -> result B) : result B :=
  match r with
  | Ok a => k a
  | Throw e => Throw e
  end.

Declare Scope result_scope.
Delimit Scope result_scope with result.
Notation "'let*' x := c 'in' k" := (rbind c (fun x => k))
  (at level 10, x name, c at level 100, k at level 200) : result_scope.

(* ================================================================= *)
(** ** The factory: [src/services/pdfFactory.ts] *)

Section Factory.
Context {pdf : JsPDF}.
Local Open Scope result_scope.
Local Open Scope Z_scope.

Definition createPDF (amb : Ambient) (title content : jsstring)
  : result ArrayBuffer :=
  (* A4 paper, portrait, mm units *)
  let* doc := jsPDF_new amb (JS.lit "p") (JS.lit "mm") (JS.lit "a4") in
  let* doc := jsPDF_setFont (JS.lit "helvetica") (JS.lit "normal") doc in
  (* Metadata *)
  let* doc := jsPDF_setProperties title (JS.lit "Static PDF Manager") doc in
  (* Title section *)
  let* doc := jsPDF_setFontSize 24 doc in
  let* doc := jsPDF_setFont (JS.lit "helvetica") (JS.lit "bold") doc in
  let* splitTitle := jsPDF_splitTextToSize title 170 doc in
  let* doc := jsPDF_text splitTitle 20 25 doc in
  let titleHeight := Z.of_nat (List.length splitTitle) * 10 + 15 in
  (* Content section *)
  let* doc := jsPDF_setFontSize 12 doc in
  let* doc := jsPDF_setFont (JS.lit "helvetica") (JS.lit "normal") doc in
  let* splitContent := jsPDF_splitTextToSize content 170 doc in
  let* doc := jsPDF_text splitContent 20 (25 + titleHeight) doc in
  jsPDF_output (JS.lit "arraybuffer") doc.
End Factory.

(* ================================================================= *)
(** ** The platform seen by the controller *)

(** A [blob:] URL handed out by [URL.createObjectURL], by serial number. *)
Definition ObjectURL := nat.

(** Calls the controller makes that leave it. *)
Inductive Event : Type :=
| EvGetDocuments
| EvSaveDocument (d : PDFDocument)
| EvDeleteDocument (i : jsstring)
| EvCreatePDF (title content : jsstring)
| EvAlert (msg : string)
| EvConfirm (msg : string)
| EvConsoleError (msg : list string) (e : Error)
| EvWindowOpen (url : ObjectURL).

(** A pending [setTimeout(() => URL.revokeObjectURL(url), delay)]. *)
Record Timer : Type := mkTimer {
  due : Z;
  revokes : ObjectURL
}.

Section Controller.
Context {storage : StorageService} {pdf : JsPDF}.

(** What the platform answers during one run of a handler:
    [crypto.randomUUID()], [confirm(...)], whether [window.open] returned
    a window, and the draw of the jsPDF constructor. *)
Record Env : Type := mkEnv {
  env_uuid : jsstring;
  env_confirm : bool;
  env_popup : bool;
  env_ambient : Ambient
}.

Record World : Type := mkWorld {
  app : AppState;
  store : Store;
  trace : list Event;
  clock : Z;
  objectURLs : list (ObjectURL * ArrayBuffer);
  nextURL : ObjectURL;
  timers : list Timer
}.

Definition with_app (f : AppState -> AppState) (w : World) : World :=
  mkWorld (f (app w)) (store w) (trace w) (clock w) (objectURLs w)
    (nextURL w) (timers w).

Definition with_store (s : Store) (w : World) : World :=
  mkWorld (app w) s (trace w) (clock w) (objectURLs w) (nextURL w)
    (timers w).

Definition log (ev : Event) (w : World) : World :=
  mkWorld (app w) (store w) (trace w ++ [ev]) (clock w) (objectURLs w)
    (nextURL w) (timers w).

(** *** The monad of handlers: state and exceptions *)

Definition M (A : Type) : Type := World -> result A * World.

Definition ret {A : Type} (a : A) : M A := fun w => (Ok a, w).

Definition bind {A B : Type} (m : M A) (k : A -> M B) : M B :=
  fun w =>
    match m w with
    | (Ok a, w') => k a w'
    | (Throw e, w') => (Throw e, w')
    end.

(** [try { body } catch (e) { handler e }]. *)
Definition try_catch {A : Type} (body : M A) (handler : Error -> M A)
  : M A :=
  fun w =>
    match body w with
    | (Ok a, w') => (Ok a, w')
    | (Throw e, w') => handler e w'
    end.

(** [try { body } finally { cleanup }]. *)
Definition try_finally {A : Type} (body : M A) (cleanup : M unit) : M A :=
  fun w =>
    match body w with
    | (r, w') =>
        match cleanup w' with
        | (Ok _, w'') => (r, w'')
        | (Throw e, w'') => (Throw e, w'')
        end
    end.

(** A handler closes over the values of the render it was created in. *)
Definition render {A : Type} (h : AppState -> M A) : M A :=
  fun w => h (app w) w.

(** A [useState] setter. *)
Definition set (f : AppState -> AppState) : M unit :=
  fun w => (Ok tt, with_app f w).

Definition emit (ev : Event) : M unit := fun w => (Ok tt, log ev w).

Definition alert (msg : string) : M unit := emit (EvAlert msg).

Definition console_error (msg : list string) (e : Error) : M unit :=
  emit (EvConsoleError msg e).

Definition confirm (env : Env) (msg : string) : M bool :=
  fun w => (Ok (env_confirm env), log (EvConfirm msg) w).

Definition Date_now : M Z := fun w => (Ok (clock w), w).

Definition crypto_randomUUID (env : Env) : M jsstring := ret (env_uuid env).

Definition await {A : Type} (r : result A) : M A := fun w => (r, w).

(** *** Calls to the storage service *)

Definition Storage_getDocuments : M (list PDFDocument) :=
  fun w => (getDocuments (store w), log EvGetDocuments w).

Definition Storage_saveDocument (d : PDFDocument) : M unit :=
  fun w =>
    match saveDocument d (store w) with
    | Ok s' => (Ok tt, with_store s' (log (EvSaveDocument d) w))
    | Throw e => (Throw e, log (EvSaveDocument d) w)
    end.

Definition Storage_deleteDocument (i : jsstring) : M unit :=
  fun w =>
    match deleteDocument i (store w) with
    | Ok s' => (Ok tt, with_store s' (log (EvDeleteDocument i) w))
    | Throw e => (Throw e, log (EvDeleteDocument i) w)
    end.

(** *** The call to the factory *)

Definition PDFFactory_createPDF (env : Env) (title content : jsstring)
  : M ArrayBuffer :=
  fun w => (createPDF (env_ambient env) title content,
            log (EvCreatePDF title content) w).

(** *** Object URLs and timers *)

Definition URL_createObjectURL (b : ArrayBuffer) : M ObjectURL :=
  fun w =>
    (Ok (nextURL w),
     mkWorld (app w) (store w) (trace w) (clock w)
       (objectURLs w ++ [(nextURL w, b)]) (S (nextURL w)) (timers w)).

Definition window_open (env : Env) (url : ObjectURL) : M bool :=
  fun w => (Ok (env_popup env), log (EvWindowOpen url) w).

Definition setTimeout_revokeObjectURL (url : ObjectURL) (delay : Z)
  : M unit :=
  fun w =>
    (Ok tt,
     mkWorld (app w) (store w) (trace w) (clock w) (objectURLs w)
       (nextURL w) (timers w ++ [mkTimer (clock w + delay) url])).

Definition revoked_by (fired : list Timer) (u : ObjectURL) : bool :=
  existsb (fun t => Nat.eqb (revokes t) u) fired.

(** The event loop reaches time [t]: every timer due by then has run its
    callback, [URL.revokeObjectURL(url)], and has left the queue. *)
Definition run_timers (t : Z) (w : World) : World :=
  let fired := filter (fun tm => (due tm <=? t)%Z) (timers w) in
  mkWorld (app w) (store w) (trace w) (Z.max (clock w) t)
    (filter (fun e => negb (revoked_by fired (fst e))) (objectURLs w))
    (nextURL w)
    (filter (fun tm => negb (due tm <=? t)%Z) (timers w)).

Definition live (u : ObjectURL) (w : World) : bool :=
  existsb (fun e => Nat.eqb (fst e) u) (objectURLs w).

Notation "x <- c ;; k" := (bind c (fun x => k))
  (at level 61, c at next level, right associativity).
Notation "c ;; k" := (bind c (fun _ => k))
  (at level 61, right associativity).

(* --------------------------------------------------------------- *)
(** ** The handlers of [App] *)

Local Open Scope string_scope.
Local Open Scope Z_scope.

Definition loadDocuments : M unit :=
  try_catch
    (docs <- Storage_getDocuments ;;
     set (setDocuments (JS.sort (fun a b => addedAt b - addedAt a) docs)))
    (fun error => console_error ["Failed to load documents"] error).

(** [files] is [e.target.files]: [null], or the list of chosen files. *)
Definition handleFileSelect (files : option (list File)) : M unit :=
  render (fun st =>
    match files with
    | Some (file :: _) =>
        set (setUploadFile (Some file)) ;;
        (* Only set name if not already typed *)
        if negb (JS.truthy (uploadName st))
        then set (setUploadName
                    (JS.replace (JS.lit ".pdf") [] (file_name file)))
        else ret tt
    | _ => ret tt
    end).

Definition resetUploadForm : M unit :=
  set (setUploadFile None) ;;
  set (setUploadCover None) ;;
  set (setUploadName []) ;;
  set (setShowUploadModal false).

Definition confirmUpload (env : Env) : M unit :=
  render (fun st =>
    match uploadFile st with
    | None => ret tt
    | Some file =>
        set (setIsProcessing true) ;;
        try_finally
          (try_catch
             (arrayBuffer <- await (file_arrayBuffer file) ;;
              uuid <- crypto_randomUUID env ;;
              now <- Date_now ;;
              let newDoc :=
                {| id := uuid;
                   name := JS.or (uploadName st)
                             (JS.replace (JS.lit ".pdf") [] (file_name file));
                   size := file_size file;
                   type := file_type file;
                   data := arrayBuffer;
                   coverImage := JS.or_undefined (uploadCover st);
                   addedAt := now;
                   description := None |} in
              Storage_saveDocument newDoc ;;
              loadDocuments ;;
              resetUploadForm)
             (fun _ => alert "Erro ao salvar arquivo."))
          (set (setIsProcessing false))
    end).

Definition handleCreatePDF (env : Env) : M unit :=
  render (fun st =>
    if negb (JS.truthy (JS.trim (creatorTitle st)))
       || negb (JS.truthy (JS.trim (creatorContent st)))
    then alert "Por favor, adicione um título e conteúdo."
    else
      try_catch
        (pdfBuffer <- PDFFactory_createPDF env (creatorTitle st)
                        (creatorContent st) ;;
         uuid <- crypto_randomUUID env ;;
         now <- Date_now ;;
         let newDoc :=
           {| id := uuid;
              name := creatorTitle st;
              size := byteLength pdfBuffer;
              type := JS.lit "application/pdf";
              data := pdfBuffer;
              coverImage := JS.or_undefined (creatorCover st);
              addedAt := now;
              description := Some (JS.lit "Gerado internamente") |} in
         Storage_saveDocument newDoc ;;
         loadDocuments ;;
         (* Clear form *)
         set (setCreatorTitle []) ;;
         set (setCreatorContent []) ;;
         set (setCreatorCover None) ;;
         (* Go back to library *)
         set (setViewMode library) ;;
         alert "PDF criado com sucesso!")
        (fun e =>
           console_error [] e ;;
           alert "Erro ao criar PDF. Verifique se o texto não contém caracteres especiais não suportados."))%bool.

(** [e.stopPropagation()] only concerns the DOM and is left out. *)
Definition deleteDoc (env : Env) (i : jsstring) : M unit :=
  yes <- confirm env "Tem certeza que deseja excluir este PDF?" ;;
  if yes : bool
  then Storage_deleteDocument i ;; loadDocuments
  else ret tt.

Definition openDoc (env : Env) (doc : PDFDocument) : M unit :=
  (* Create a URL for the Blob made from the stored ArrayBuffer *)
  url <- URL_createObjectURL (data doc) ;;
  newWindow <- window_open env url ;;
  (* Fallback if popup blocker prevents opening *)
  (if negb newWindow
   then alert "Por favor, permita popups para este site para visualizar o PDF."
   else ret tt) ;;
  (* We set a timeout to clean it up after a minute. *)
  setTimeout_revokeObjectURL url 60000.

(** The navigation buttons: [onClick={() => setViewMode(v)}]. *)
Definition navigate (v : ViewMode) : M unit := set (setViewMode v).

(** The events a run appended to the trace. *)
Definition emitted (w w' : World) : list Event :=
  skipn (List.length (trace w)) (trace w').

Definition storage_event (ev : Event) : bool :=
  match ev with
  | EvGetDocuments | EvSaveDocument _ | EvDeleteDocument _ => true
  | _ => false
  end.

Definition factory_event (ev : Event) : bool :=
  match ev with
  | EvCreatePDF _ _ => true
  | _ => false
  end.
End Controller.

(* ================================================================= *)
(** ** Vocabulary of the statements *)

Section Vocabulary.
Context {storage : StorageService} {pdf : JsPDF}.

(** The object literal [newDoc] of [confirmUpload], by name. *)
Definition uploadedDoc (env : Env) (st : AppState) (file : File)
    (arrayBuffer : ArrayBuffer) (now : Z) : PDFDocument :=
  {| id := env_uuid env;
     name := JS.or (uploadName st)
               (JS.replace (JS.lit ".pdf") [] (file_name file));
     description := None;
     size := file_size file;
     type := file_type file;
     data := arrayBuffer;
     coverImage := JS.or_undefined (uploadCover st);
     addedAt := now |}.

(** The object literal [newDoc] of [handleCreatePDF], by name. *)
Definition createdDoc (env : Env) (st : AppState) (pdfBuffer : ArrayBuffer)
    (now : Z) : PDFDocument :=
  {| id := env_uuid env;
     name := creatorTitle st;
     description := Some (JS.lit "Gerado internamente");
     size := byteLength pdfBuffer;
     type := JS.lit "application/pdf";
     data := pdfBuffer;
     coverImage := JS.or_undefined (creatorCover st);
     addedAt := now |}.

(** The cached view after a full reload from store [s]: the whole listing,
    most recent first; [old] is kept when the listing fails. *)
Definition reloaded (s : Store) (old : list PDFDocument)
  : list PDFDocument :=
  match getDocuments s with
  | Ok docs => JS.sort (fun a b => (addedAt b - addedAt a)%Z) docs
  | Throw _ => old
  end.

(** Most recent first. *)
Definition recent_first (a b : PDFDocument) : Prop :=
  (addedAt a >= addedAt b)%Z.

(** A handle released when the view that opened it is left. *)
Definition released_on_navigation (url : ObjectURL) (w : World) : Prop :=
  forall v, live url (snd (navigate v w)) = false.

(** No pending timer names an object URL that is yet to be created. *)
Definition timers_known (w : World) : Prop :=
  forall tm, In tm (timers w) -> (revokes tm < nextURL w)%nat.

(** [pre] is what comes before the leftmost occurrence of [pat] in [s]. *)
Definition first_occurrence (pat s pre post : jsstring) : Prop :=
  s = pre ++ pat ++ post /\
  forall pre' post', s = pre' ++ pat ++ post' ->
                     (List.length pre <= List.length pre')%nat.

Definition occurs (pat s : jsstring) : Prop :=
  exists pre post, s = pre ++ pat ++ post.

End Vocabulary.

(* ================================================================= *)
(** ** The rest of the component *)

Definition setDarkMode (v : bool) (s : AppState) : AppState :=
  mkAppState (documents s) (viewMode s) v (creatorTitle s) (creatorContent s)
    (creatorCover s) (showUploadModal s) (uploadFile s) (uploadCover s)
    (uploadName s) (isProcessing s).

(** [disabled={!uploadFile || isProcessing}] on the button that calls
    [confirmUpload]. *)
Definition confirmDisabled (st : AppState) : bool :=
  negb (match uploadFile st with Some _ => true | None => false end)
  || isProcessing st.

(** [documents.length === 0]: the library view shows "Biblioteca Vazia". *)
Definition libraryEmpty (st : AppState) : bool :=
  Nat.eqb (List.length (documents st)) 0.

Section Component.
Context {storage : StorageService} {pdf : JsPDF}.

Notation "x <- c ;; k" := (bind c (fun x => k))
  (at level 61, c at next level, right associativity).
Notation "c ;; k" := (bind c (fun _ => k))
  (at level 61, right associativity).

(** The effect run once after the first render.  [prefersDark] is
    [window.matchMedia && window.matchMedia(...).matches].  The call
    [loadDocuments()] is not awaited; its setter and [setDarkMode] write
    different cells, so their order does not show. *)
Definition mount (prefersDark : bool) : M unit :=
  loadDocuments ;;
  if prefersDark then set (setDarkMode true) else ret tt.

(** [onClick={() => setDarkMode(!darkMode)}]. *)
Definition toggleDarkMode : M unit :=
  render (fun st => set (setDarkMode (negb (darkMode st)))).

(** A [FileReader] that [processCoverImage] has started.  The platform holds
    it while the file is read; nothing of the component refers to it. *)
Record Reading : Type := mkReading {
  reading_file : File;
  reading_onloadend : option jsstring -> M unit
}.

(** [processCoverImage] creates the reader, registers [onloadend] and starts
    [readAsDataURL]; it returns before the read ends.  The reader it started
    is the value of the computation.  [result] is [reader.result] at the
    time [loadend] fires: the data URL, or [null] after a failed read. *)
Definition processCoverImage (file : File)
    (callback : option jsstring -> M unit) : M Reading :=
  ret (mkReading file (fun result => callback result)).

Definition handleUploadCoverSelect (files : option (list File))
  : M (option Reading) :=
  match files with
  | Some (file :: _) =>
      rd <- processCoverImage file (fun r => set (setUploadCover r)) ;;
      ret (Some rd)
  | _ => ret None
  end.

Definition handleCreatorCoverSelect (files : option (list File))
  : M (option Reading) :=
  match files with
  | Some (file :: _) =>
      rd <- processCoverImage file (fun r => set (setCreatorCover r)) ;;
      ret (Some rd)
  | _ => ret None
  end.

(** The [loadend] event of a started reader, in a later turn of the event
    loop: the registered callback runs on [reader.result]. *)
Definition loadend (rd : Reading) (result : option jsstring) : M unit :=
  reading_onloadend rd result.

(** Every live object URL has a timer queued to revoke it. *)
Definition handles_scheduled (w : World) : Prop :=
  forall u, live u w = true ->
            exists tm, In tm (timers w) /\ revokes tm = u.

(** What can happen to the mounted component: the [onClick] and [onChange]
    callbacks of the markup returned by [App], each with what the platform
    answers during its run, and the event loop firing the timers that are
    due. *)
Inductive Action : Type :=
(* header *)
| ActNavigate (v : ViewMode)
| ActShowUploadModal
| ActToggleDarkMode
(* library view: one card per cached document *)
| ActOpenDoc (env : Env) (doc : PDFDocument)
| ActDeleteDoc (env : Env) (doc : PDFDocument)
(* create view *)
| ActTypeTitle (v : jsstring)
| ActTypeContent (v : jsstring)
| ActCreatorCover (files : option (list File))
| ActCreatePDF (env : Env)
(* upload dialog *)
| ActResetUploadForm
| ActFileSelect (files : option (list File))
| ActTypeName (v : jsstring)
| ActUploadCover (files : option (list File))
| ActConfirmUpload (env : Env)
(* event loop *)
| ActTimers (t : Z).

Definition is_library (v : ViewMode) : bool :=
  match v with library => true | create => false end.

Definition is_create (v : ViewMode) : bool :=
  match v with create => true | library => false end.

(** The callback is attached to an element that the current render shows
    and that is not disabled. *)
Definition enabled (a : Action) (st : AppState) : Prop :=
  match a with
  | ActNavigate _ | ActShowUploadModal | ActToggleDarkMode => True
  | ActOpenDoc _ doc | ActDeleteDoc _ doc =>
      is_library (viewMode st) = true /\ In doc (documents st)
  | ActTypeTitle _ | ActTypeContent _ | ActCreatorCover _
  | ActCreatePDF _ =>
      is_create (viewMode st) = true
  | ActResetUploadForm | ActFileSelect _ | ActTypeName _
  | ActUploadCover _ =>
      showUploadModal st = true
  | ActConfirmUpload _ =>
      showUploadModal st = true /\ confirmDisabled st = false
  | ActTimers _ => True
  end.

Definition perform (a : Action) (w : World) : World :=
  match a with
  | ActNavigate v => snd (navigate v w)
  | ActShowUploadModal => snd (set (setShowUploadModal true) w)
  | ActToggleDarkMode => snd (toggleDarkMode w)
  | ActOpenDoc env doc => snd (openDoc env doc w)
  | ActDeleteDoc env doc => snd (deleteDoc env (id doc) w)
  | ActTypeTitle v => snd (set (setCreatorTitle v) w)
  | ActTypeContent v => snd (set (setCreatorContent v) w)
  | ActCreatorCover files => snd (handleCreatorCoverSelect files w)
  | ActCreatePDF env => snd (handleCreatePDF env w)
  | ActResetUploadForm => snd (resetUploadForm w)
  | ActFileSelect files => snd (handleFileSelect files w)
  | ActTypeName v => snd (set (setUploadName v) w)
  | ActUploadCover files => snd (handleUploadCoverSelect files w)
  | ActConfirmUpload env => snd (confirmUpload env w)
  | ActTimers t => run_timers t w
  end.

(** A reader whose callback is one of the two cover setters. *)
Definition cover_reading (rd : Reading) : Prop :=
  (forall result w,
      loadend rd result w = (Ok tt, with_app (setUploadCover result) w)) \/
  (forall result w,
      loadend rd result w = (Ok tt, with_app (setCreatorCover result) w)).

(** The readers an action starts. *)
Definition started_by (a : Action) (w : World) : list Reading :=
  match a with
  | ActCreatorCover files =>
      match fst (handleCreatorCoverSelect files w) with
      | Ok (Some rd) => [rd]
      | _ => []
      end
  | ActUploadCover files =>
      match fst (handleUploadCoverSelect files w) with
      | Ok (Some rd) => [rd]
      | _ => []
      end
  | _ => []
  end.

(** The component runs from [w0]: [running w0 rs w] when it can be in world
    [w] with the readers [rs] still reading.  An enabled action runs, and
    starts its readers; a reader that is still reading ends, with any
    result, and its [loadend] callback runs. *)
Inductive running (w0 : World) : list Reading -> World -> Prop :=
| run_start : running w0 [] w0
| run_action (rs : list Reading) (w : World) (a : Action) :
    running w0 rs w -> enabled a (app w) ->
    running w0 (started_by a w ++ rs) (perform a w)
| run_loadend (rs1 : list Reading) (rd : Reading) (rs2 : list Reading)
    (w : World) (result : option jsstring) :
    running w0 (rs1 ++ rd :: rs2) w ->
    running w0 (rs1 ++ rs2) (snd (loadend rd result w)).

(** The worlds the component can be in, from [w0] on. *)
Definition reachable (w0 w : World) : Prop :=
  exists rs, running w0 rs w.

(** The world right after the component is mounted on [s]. *)
Definition mounted (prefersDark : bool) (s : Store) (now : Z) : World :=
  snd (mount prefersDark (mkWorld initialState s [] now [] 0 [])).

Definition writes_store (a : Action) : bool :=
  match a with
  | ActDeleteDoc _ _ | ActCreatePDF _ | ActConfirmUpload _ => true
  | _ => false
  end.
End Component.

(* ================================================================= *)
(** ** Reference implementations of the collaborators *)

(** Modelled from the spec: [src/services/storage.ts] is not part of the
    sources at hand.  Section 4.1 of the specification describes a keyed
    collection with [list], [put] (insert or full replacement by id) and
    [delete] (idempotent); an engine that cannot be opened fails with
    [StorageUnavailable], a payload that cannot be committed with
    [StorageQuotaExceeded]. *)
Module MemStore.

Record t : Type := mk {
  records : list PDFDocument;
  available : bool;
  quota : Z
}.

Fixpoint put (d : PDFDocument) (l : list PDFDocument) : list PDFDocument :=
  match l with
  | [] => [d]
  | x :: l' => if JS.eqb (id x) (id d) then d :: l' else x :: put d l'
  end.

Definition stored_bytes (l : list PDFDocument) : Z :=
  fold_right (fun d n => (byteLength (data d) + n)%Z) 0%Z l.

Definition list_ (s : t) : result (list PDFDocument) :=
  if available s then Ok (records s) else Throw StorageUnavailable.

Definition save (d : PDFDocument) (s : t) : result t :=
  if negb (available s) then Throw StorageUnavailable
  else if (quota s <? stored_bytes (put d (records s)))%Z
       then Throw StorageQuotaExceeded
       else Ok (mk (put d (records s)) (available s) (quota s)).

Definition delete (i : jsstring) (s : t) : result t :=
  if available s
  then Ok (mk (filter (fun d => negb (JS.eqb (id d) i)) (records s))
             (available s) (quota s))
  else Throw StorageUnavailable.

Definition service : StorageService :=
  {| Store := t;
     getDocuments := list_;
     saveDocument := save;
     deleteDocument := delete |}.

End MemStore.

(** A plain-text stand-in for jsPDF, enough to run the controller: the
    constructor keeps the creation time it draws, [text] appends the lines it
    is given, and [output] writes one byte of creation time followed by the
    lines.  Code units above U+00FF are refused, as by a Latin-1 font. *)
Module PlainPDF.

Record doc : Type := mkDoc {
  created : Z;
  lines : list jsstring
}.

Definition byte_of_N (c : N) : Byte.byte :=
  match Byte.of_N (c mod 256) with
  | Some b => b
  | None => Byte.x00
  end.

Definition encodable (s : jsstring) : bool :=
  forallb (fun c => (c <? 256)%N) s.

Definition splitTextToSize (s : jsstring) (width : Z) (d : doc)
  : result (list jsstring) :=
  if encodable s then Ok [s] else Throw UnsupportedContent.

Definition text (ls : list jsstring) (x y : Z) (d : doc) : result doc :=
  Ok (mkDoc (created d) (lines d ++ ls)).

Definition output (kind : jsstring) (d : doc) : result ArrayBuffer :=
  Ok (byte_of_N (Z.to_N (created d))
        :: flat_map (fun l => map byte_of_N l ++ [Byte.x0a]) (lines d)).

Definition lib : JsPDF :=
  {| Doc := doc;
     Ambient := Z;
     jsPDF_new := fun now _ _ _ => Ok (mkDoc now []);
     jsPDF_setFont := fun _ _ d => Ok d;
     jsPDF_setProperties := fun _ _ d => Ok d;
     jsPDF_setFontSize := fun _ d => Ok d;
     jsPDF_splitTextToSize := splitTextToSize;
     jsPDF_text := text;
     jsPDF_output := output |}.

End PlainPDF.

(** Concrete inputs used by the examples below. *)
Module Sample.

Definition env : @Env PlainPDF.lib :=
  mkEnv (pdf := PlainPDF.lib) (JS.lit "uuid-1") true true 7%Z.

Definition emptyStore : MemStore.t := MemStore.mk [] true 1000.

Definition world (a : AppState) (s : MemStore.t)
  : @World MemStore.service :=
  mkWorld (storage := MemStore.service) a s [] 1000%Z [] 0 [].

Definition pdfFile : File :=
  mkFile (JS.lit "a.pdf.b.pdf") 3 (JS.lit "application/pdf")
    (Ok [Byte.x25; Byte.x50; Byte.x44]).

Definition textFile : File :=
  mkFile (JS.lit "notes.txt") 2 (JS.lit "text/plain")
    (Ok [Byte.x68; Byte.x69]).

Definition uploading (f : File) : AppState :=
  setShowUploadModal true (setUploadFile (Some f) initialState).

Definition creating (title content : string) : AppState :=
  setViewMode create
    (setCreatorContent (JS.lit content)
       (setCreatorTitle (JS.lit title) initialState)).

Definition doc (i : string) (t : Z) : PDFDocument :=
  mkPDFDocument (JS.lit i) (JS.lit i) None 1 (JS.lit "application/pdf")
    [Byte.x25] None t.

(** A store that lists three documents out of order. *)
Definition shelf : MemStore.t :=
  MemStore.mk [doc "b" 20; doc "a" 10; doc "c" 30] true 1000.

(** The upload dialog with [f] chosen and no name typed. *)
Definition uploadWorld (f : File) : @World MemStore.service :=
  world (uploading f) emptyStore.

(** The creation form holding a title the stand-in font cannot encode
    (U+20AC, the euro sign). *)
Definition euroWorld : @World MemStore.service :=
  world (setCreatorTitle [8364%N] (creating "" "x")) emptyStore.

(** The creation form with a blank title. *)
Definition blankWorld : @World MemStore.service :=
  world (creating "  " "x") emptyStore.

Definition notesWorld : @World MemStore.service :=
  world (creating "Notes" "Hello world") emptyStore.

(** The records [confirmUpload] builds for the two sample files. *)
Definition uploadedPdf : PDFDocument :=
  uploadedDoc env (uploading pdfFile) pdfFile
    [Byte.x25; Byte.x50; Byte.x44] 1000.

Definition uploadedText : PDFDocument :=
  uploadedDoc env (uploading textFile) textFile [Byte.x68; Byte.x69] 1000.

End Sample.

(** More concrete inputs: a store that cannot be opened, a file that cannot
    be read, a user who declines, listings with ties, cover files. *)
Module SampleMore.

Import Sample.

Definition offline : MemStore.t := MemStore.mk [doc "b" 20] false 1000.

Definition offlineWorld (a : AppState) : @World MemStore.service :=
  world a offline.

Definition declining : @Env PlainPDF.lib :=
  mkEnv (pdf := PlainPDF.lib) (JS.lit "uuid-2") false true 7%Z.

Definition unreadable : File :=
  mkFile (JS.lit "gone.pdf") 3 (JS.lit "application/pdf") (Throw NotReadable).

Definition secondFile : File :=
  mkFile (JS.lit "other.pdf") 1 (JS.lit "application/pdf") (Ok [Byte.x26]).

Definition coverFile : File :=
  mkFile (JS.lit "cover.png") 1 (JS.lit "image/png") (Ok [Byte.x89]).

Definition dataURL : jsstring := JS.lit "data:image/png;base64,iQ==".

(** The reader that choosing [coverFile] in the upload dialog starts. *)
Definition coverReading : @Reading MemStore.service :=
  mkReading coverFile (fun result => set (setUploadCover result)).



Definition tiedShelf : MemStore.t :=
  MemStore.mk [doc "b" 10; doc "c" 30; doc "a" 10] true 1000.

Definition sortedShelf : MemStore.t :=
  MemStore.mk [doc "c" 30; doc "b" 20; doc "a" 10] true 1000.

Definition createdNotes : PDFDocument :=
  createdDoc env (creating "Notes" "Hello world")
    [Byte.x07; Byte.x4e; Byte.x6f; Byte.x74; Byte.x65; Byte.x73; Byte.x0a;
     Byte.x48; Byte.x65; Byte.x6c; Byte.x6c; Byte.x6f; Byte.x20; Byte.x77;
     Byte.x6f; Byte.x72; Byte.x6c; Byte.x64; Byte.x0a] 1000.

(** The component mounted on the shelf of three documents. *)
Definition started : @World MemStore.service :=
  mounted (storage := MemStore.service) false shelf 1000.

Definition reselected : @World MemStore.service :=
  snd (handleFileSelect (Some [secondFile])
         (snd (handleFileSelect (Some [pdfFile])
                 (world (setShowUploadModal true initialState) emptyStore)))).

Definition reselectedDoc : PDFDocument :=
  uploadedDoc env (app reselected) secondFile [Byte.x26] 1000.

Definition coveredUpload : @World MemStore.service :=
  world (setUploadCover (Some dataURL) (uploading pdfFile)) emptyStore.

Definition coveredPdf : PDFDocument :=
  uploadedDoc env (app coveredUpload) pdfFile
    [Byte.x25; Byte.x50; Byte.x44] 1000.

(** After the upload of [coveredUpload]: the next file is chosen at once. *)
Definition nextUpload : @World MemStore.service :=
  snd (handleFileSelect (Some [secondFile])
         (snd (confirmUpload env coveredUpload))).

(** The same, with the read of [coverFile] ending after the first upload. *)
Definition lateUpload : @World MemStore.service :=
  snd (handleFileSelect (Some [secondFile])
         (snd (loadend coverReading (Some dataURL)
                 (snd (confirmUpload env coveredUpload))))).

Definition lateDoc : PDFDocument :=
  uploadedDoc declining (app lateUpload) secondFile [Byte.x26] 1000.

Definition nextDoc : PDFDocument :=
  uploadedDoc declining (app nextUpload) secondFile [Byte.x26] 1000.

Definition opened : @World MemStore.service :=
  perform (ActOpenDoc env (doc "c" 30)) started.

End SampleMore.

(* ================================================================= *)
(** ** Tactics *)

(** Unfold a handler down to the calls it makes. *)
Ltac run :=
  unfold confirmUpload, handleCreatePDF, deleteDoc, openDoc, loadDocuments,
    handleFileSelect, resetUploadForm, navigate, render, bind, try_catch,
    try_finally, set, alert, console_error, emit, confirm, Date_now,
    crypto_randomUUID, await, ret, Storage_getDocuments,
    Storage_saveDocument, Storage_deleteDocument, PDFFactory_createPDF,
    URL_createObjectURL, window_open, setTimeout_revokeObjectURL,
    with_app, with_store, log;
  cbn.

(** Split on every outcome the run depends on. *)
Ltac outcomes :=
  repeat match goal with
         | |- context [match ?x with _ => _ end] =>
             lazymatch x with
             | context [match _ with _ => _ end] => fail
             | _ => destruct x eqn:?; cbn
             end
         end.

(* ================================================================= *)
(** ** Facts about the JavaScript primitives *)

Module JSFacts.

Lemma startsWith_app (pat post : jsstring) :
  JS.startsWith pat (pat ++ post) = true.
Proof.
  induction pat as [|p pat IH]; simpl.
  - reflexivity.
  - now rewrite N.eqb_refl, IH.
Qed.

Lemma startsWith_inv (pat s : jsstring) :
  JS.startsWith pat s = true -> exists post, s = pat ++ post.
Proof.
  revert s; induction pat as [|p pat IH]; intros s H; simpl in *.
  - now exists s.
  - destruct s as [|c s]; [discriminate|].
    apply andb_prop in H as [Hc Hs].
    apply N.eqb_eq in Hc; subst c.
    destruct (IH _ Hs) as [post ->].
    now exists post.
Qed.

Lemma skipn_prefix (pat post : jsstring) :
  skipn (List.length pat) (pat ++ post) = post.
Proof. induction pat; simpl; auto. Qed.

Lemma replace_eq (pat rep s : jsstring) :
  JS.replace pat rep s =
  if JS.startsWith pat s then rep ++ skipn (List.length pat) s
  else match s with
       | [] => []
       | c :: s' => c :: JS.replace pat rep s'
       end.
Proof. destruct s; reflexivity. Qed.

Lemma replace_first (pat rep s pre post : jsstring) :
  first_occurrence pat s pre post ->
  JS.replace pat rep s = pre ++ rep ++ post.
Proof.
  revert s; induction pre as [|c pre IH]; intros s [Hs Hmin].
  - simpl in Hs; subst s.
    now rewrite replace_eq, startsWith_app, skipn_prefix.
  - subst s.
    assert (Hno : JS.startsWith pat ((c :: pre) ++ pat ++ post) = false).
    { destruct (JS.startsWith pat ((c :: pre) ++ pat ++ post)) eqn:E;
        [|reflexivity].
      apply startsWith_inv in E as [post' E].
      specialize (Hmin [] post' E); simpl in Hmin; lia. }
    rewrite replace_eq, Hno. simpl. f_equal.
    apply IH. split; [reflexivity|].
    intros pre' post' E.
    specialize (Hmin (c :: pre') post'). simpl in Hmin.
    rewrite E in Hmin. specialize (Hmin eq_refl). lia.
Qed.

Lemma replace_absent (pat rep s : jsstring) :
  ~ occurs pat s -> JS.replace pat rep s = s.
Proof.
  induction s as [|c s IH]; intros Hno.
  - simpl. destruct (JS.startsWith pat []) eqn:E; [|reflexivity].
    apply startsWith_inv in E as [post E].
    exfalso; apply Hno. now exists [], post.
  - simpl. destruct (JS.startsWith pat (c :: s)) eqn:E.
    + apply startsWith_inv in E as [post E].
      exfalso; apply Hno. now exists [], post.
    + f_equal. apply IH. intros (pre & post & E').
      apply Hno. exists (c :: pre), post. now rewrite E'.
Qed.

Lemma trimStart_blank (s : jsstring) :
  JS.trimStart s = [] <-> forallb JS.isWhiteSpace s = true.
Proof.
  induction s as [|c s IH]; simpl.
  - tauto.
  - destruct (JS.isWhiteSpace c); simpl; [exact IH|].
    split; discriminate.
Qed.

(** A string trims to the empty string exactly when it holds nothing but
    white space. *)
Lemma trim_blank (s : jsstring) :
  JS.trim s = [] <-> forallb JS.isWhiteSpace s = true.
Proof.
  unfold JS.trim, JS.trimEnd. split.
  - intros H. apply trimStart_blank.
    destruct (JS.trimStart s) as [|c t] eqn:E; [reflexivity|].
    exfalso.
    assert (Hlast : forall u, JS.trimStart u = c :: t ->
                              JS.isWhiteSpace c = false).
    { induction u as [|x u IHu]; simpl; [discriminate|].
      destruct (JS.isWhiteSpace x) eqn:Ex; [exact IHu|].
      intros [= -> _]. exact Ex. }
    pose proof (Hlast _ E) as Hc.
    apply (f_equal (@rev N)) in H. rewrite rev_involutive in H.
    simpl in H.
    assert (Hkeep : forall u, JS.trimStart (u ++ [c]) <> []).
    { induction u as [|x u IHu]; simpl.
      - now rewrite Hc.
      - destruct (JS.isWhiteSpace x); [exact IHu|discriminate]. }
    exact (Hkeep _ H).
  - intros H. apply trimStart_blank in H. now rewrite H.
Qed.

Section SortByKey.
Variable A : Type.
Variable key : A -> Z.

Let cmp (a b : A) : Z := (key b - key a)%Z.
Let desc (a b : A) : Prop := (key a >= key b)%Z.

Lemma insert_perm (x : A) (l : list A) :
  Permutation (x :: l) (JS.insert cmp x l).
Proof.
  induction l as [|y l IH]; simpl.
  - apply Permutation_refl.
  - destruct (cmp x y <=? 0)%Z.
    + apply Permutation_refl.
    + eapply perm_trans; [apply perm_swap|].
      now apply perm_skip.
Qed.

Lemma sort_perm (l : list A) : Permutation l (JS.sort cmp l).
Proof.
  induction l as [|x l IH]; simpl.
  - constructor.
  - eapply perm_trans; [|apply insert_perm].
    now apply perm_skip.
Qed.

Lemma insert_sorted (x : A) (l : list A) :
  StronglySorted desc l -> StronglySorted desc (JS.insert cmp x l).
Proof.
  induction 1 as [|y l Hl IH Hy]; simpl.
  - repeat constructor.
  - destruct (Z.leb_spec (cmp x y) 0) as [Hle|Hgt]; unfold cmp in *.
    + constructor; [now constructor|].
      constructor; [unfold desc; lia|].
      eapply Forall_impl; [|exact Hy].
      unfold desc; intros; lia.
    + constructor; [exact IH|].
      eapply Permutation_Forall; [apply insert_perm|].
      constructor; [unfold desc; lia|exact Hy].
Qed.

Lemma sort_sorted (l : list A) : StronglySorted desc (JS.sort cmp l).
Proof.
  induction l as [|x l IH]; simpl.
  - constructor.
  - now apply insert_sorted.
Qed.

(** Three elements with strictly increasing keys have one descending
    arrangement. *)
Lemma sorted_three (l : list A) (d1 d2 d3 : A) :
  Permutation l [d1; d2; d3] ->
  (key d1 < key d2)%Z -> (key d2 < key d3)%Z ->
  StronglySorted desc l ->
  l = [d3; d2; d1].
Proof.
  intros HP H12 H23 HS.
  pose proof (Permutation_length HP) as Hlen.
  destruct l as [|a [|b [|c [|? ?]]]]; try discriminate.
  assert (Ha : In a [d1; d2; d3])
    by (eapply Permutation_in; [exact HP|simpl; auto]).
  assert (Hb : In b [d1; d2; d3])
    by (eapply Permutation_in; [exact HP|simpl; auto]).
  assert (Hc : In c [d1; d2; d3])
    by (eapply Permutation_in; [exact HP|simpl; auto]).
  apply Permutation_sym in HP.
  assert (H1 : In d1 [a; b; c])
    by (eapply Permutation_in; [exact HP|simpl; auto]).
  assert (H2 : In d2 [a; b; c])
    by (eapply Permutation_in; [exact HP|simpl; auto]).
  assert (H3 : In d3 [a; b; c])
    by (eapply Permutation_in; [exact HP|simpl; auto]).
  inversion HS as [|? ? HS' Fa]; subst.
  inversion HS' as [|? ? _ Fb]; subst.
  inversion Fa as [|? ? Hab Fa']; subst.
  inversion Fa' as [|? ? Hac _]; subst.
  inversion Fb as [|? ? Hbc _]; subst.
  unfold desc in *. simpl in *.
  destruct Ha as [<-|[<-|[<-|[]]]];
    destruct Hb as [<-|[<-|[<-|[]]]]; try lia;
    destruct Hc as [<-|[<-|[<-|[]]]]; try lia;
    try reflexivity;
    repeat match goal with
           | H : _ \/ _ |- _ => destruct H
           | H : False |- _ => destruct H
           | H : ?x = ?y |- _ =>
               apply (f_equal key) in H; try lia; clear H
           end.
Qed.
End SortByKey.

End JSFacts.

(* ================================================================= *)
(** ** Running the handlers *)

Unset Implicit Arguments.

Section Runs.
Context {storage : StorageService} {pdf : JsPDF}.

Lemma emitted_eq (w w' : World) (evs : list Event) :
  trace w' = trace w ++ evs -> emitted w w' = evs.
Proof.
  unfold emitted. intros ->.
  induction (trace w); simpl; auto.
Qed.

Lemma loadDocuments_run (w : World) :
  loadDocuments w =
  match getDocuments (store w) with
  | Ok docs =>
      (Ok tt,
       with_app
         (setDocuments (JS.sort (fun a b => (addedAt b - addedAt a)%Z) docs))
         (log EvGetDocuments w))
  | Throw e =>
      (Ok tt,
       log (EvConsoleError ["Failed to load documents"%string] e)
         (log EvGetDocuments w))
  end.
Proof. run. destruct (getDocuments (store w)); reflexivity. Qed.

Lemma emitted_nil (w w' : World) :
  trace w' = trace w -> emitted w w' = [].
Proof. intros H. apply emitted_eq. now rewrite app_nil_r. Qed.

End Runs.

(** Replace each [emitted w w'] of the goal by the events the run appended. *)
Ltac traces :=
  repeat first
    [ erewrite emitted_nil by (cbn; reflexivity)
    | erewrite emitted_eq by (cbn; rewrite <- ?app_assoc; cbn; reflexivity) ].

Section Saves.
Context {storage : StorageService} {pdf : JsPDF}.

(** Every record [confirmUpload] hands to the store is its [newDoc]. *)
Lemma confirmUpload_saves (env : Env) (w : World) (f : File)
    (d : PDFDocument) :
  uploadFile (app w) = Some f ->
  In (EvSaveDocument d) (emitted w (snd (confirmUpload env w))) ->
  exists buf,
    file_arrayBuffer f = Ok buf /\
    d = uploadedDoc env (app w) f buf (clock w).
Proof.
  intros Hf. run. rewrite Hf. outcomes; traces; simpl; intros Hin;
    repeat match goal with
           | H : _ \/ _ |- _ => destruct H
           | H : False |- _ => destruct H
           | H : EvSaveDocument _ = EvSaveDocument _ |- _ =>
               injection H as <-
           | H : _ = EvSaveDocument _ |- _ => discriminate H
           end;
    eexists; split; reflexivity.
Qed.

(** Every record [handleCreatePDF] hands to the store is its [newDoc]. *)
Lemma handleCreatePDF_saves (env : Env) (w : World) (d : PDFDocument) :
  In (EvSaveDocument d) (emitted w (snd (handleCreatePDF env w))) ->
  exists buf,
    createPDF (env_ambient env) (creatorTitle (app w))
      (creatorContent (app w)) = Ok buf /\
    d = createdDoc env (app w) buf (clock w).
Proof.
  run. outcomes; traces; simpl; intros Hin;
    repeat match goal with
           | H : _ \/ _ |- _ => destruct H
           | H : False |- _ => destruct H
           | H : EvSaveDocument _ = EvSaveDocument _ |- _ =>
               injection H as <-
           | H : _ = EvSaveDocument _ |- _ => discriminate H
           end;
    eexists; split; reflexivity.
Qed.
End Saves.

(* ================================================================= *)
(** ** The records handed to the store *)

Section Records.
Context {storage : StorageService} {pdf : JsPDF}.


(** C3, as the code has it.  A record saved by [handleCreatePDF] has the
    type [application/pdf]; a record saved by [confirmUpload] has the type
    the browser reports for the chosen file. *)
Theorem saved_type (env : Env) (w : World) (d : PDFDocument) :
  (In (EvSaveDocument d) (emitted w (snd (handleCreatePDF env w))) ->
   type d = JS.lit "application/pdf") /\
  (forall f, uploadFile (app w) = Some f ->
     In (EvSaveDocument d) (emitted w (snd (confirmUpload env w))) ->
     type d = file_type f).
Proof.
  split.
  - intros Hin.
    destruct (handleCreatePDF_saves _ _ _ Hin) as (buf & _ & ->).
    reflexivity.
  - intros f Hf Hin.
    destruct (confirmUpload_saves _ _ _ _ Hf Hin) as (buf & _ & ->).
    reflexivity.
Qed.

(** C10.  When the display name is empty at upload time, the stored record
    is named after the chosen file with the leftmost [.pdf] removed, and
    only that one; a file name without [.pdf] is kept whole. *)
Theorem upload_default_name (env : Env) (w : World) (f : File)
    (d : PDFDocument) :
  uploadFile (app w) = Some f ->
  uploadName (app w) = [] ->
  In (EvSaveDocument d) (emitted w (snd (confirmUpload env w))) ->
  name d = JS.replace (JS.lit ".pdf") [] (file_name f) /\
  (forall pre post,
      first_occurrence (JS.lit ".pdf") (file_name f) pre post ->
      name d = pre ++ post) /\
  (~ occurs (JS.lit ".pdf") (file_name f) ->
   name d = file_name f).
Proof.
  intros Hf Hname Hin.
  destruct (confirmUpload_saves _ _ _ _ Hf Hin) as (buf & _ & ->).
  simpl. rewrite Hname. simpl.
  split; [reflexivity|split].
  - intros pre post Hocc.
    now rewrite (JSFacts.replace_first [] Hocc).
  - intros Hno. now apply JSFacts.replace_absent.
Qed.

(** The same name is stored when the file is chosen through
    [handleFileSelect] with no name typed, which prefills the name field. *)
Lemma select_then_upload_name (env : Env) (w : World) (f : File)
    (rest : list File) (d : PDFDocument) :
  uploadName (app w) = [] ->
  In (EvSaveDocument d)
    (emitted (snd (handleFileSelect (Some (f :: rest)) w))
       (snd (confirmUpload env (snd (handleFileSelect (Some (f :: rest)) w)))))
  ->
  name d = JS.replace (JS.lit ".pdf") [] (file_name f).
Proof.
  intros Hname.
  assert (Hsel :
            snd (handleFileSelect (Some (f :: rest)) w)
            = with_app
                (fun st =>
                   setUploadName
                     (JS.replace (JS.lit ".pdf") [] (file_name f))
                     (setUploadFile (Some f) st)) w).
  { run. rewrite Hname. reflexivity. }
  rewrite Hsel. intros Hin.
  apply confirmUpload_saves with (f := f) in Hin; [|reflexivity].
  destruct Hin as (buf & _ & ->).
  cbn. destruct (JS.replace _ _ _); reflexivity.
Qed.
End Records.

(* ================================================================= *)
(** ** The cached view *)

Section CachedView.
Context {storage : StorageService} {pdf : JsPDF}.

(** C2.  A load that obtains the listing leaves in the cache exactly the
    listed documents, most recent first; three documents created at
    [t1 < t2 < t3] are shown in the order [t3], [t2], [t1], whatever the
    order the store lists them in. *)
Theorem loadDocuments_most_recent_first (w : World)
    (docs : list PDFDocument) :
  getDocuments (store w) = Ok docs ->
  fst (loadDocuments w) = Ok tt /\
  Permutation docs (documents (app (snd (loadDocuments w)))) /\
  StronglySorted recent_first (documents (app (snd (loadDocuments w)))) /\
  (forall d1 d2 d3,
      Permutation docs [d1; d2; d3] ->
      (addedAt d1 < addedAt d2)%Z -> (addedAt d2 < addedAt d3)%Z ->
      documents (app (snd (loadDocuments w))) = [d3; d2; d1]).
Proof.
  intros Hlist. rewrite loadDocuments_run, Hlist. cbn.
  pose proof (JSFacts.sort_perm addedAt docs) as HP.
  pose proof (JSFacts.sort_sorted addedAt docs) as HS.
  repeat split; auto.
  intros d1 d2 d3 Hdocs H12 H23.
  apply (JSFacts.sorted_three addedAt); auto.
  eapply perm_trans; [apply Permutation_sym; exact HP|exact Hdocs].
Qed.

(** C4.  In each handler, a store mutation that succeeds is followed at
    once by a listing of the store, and the cache becomes that listing in
    full (it stays as it was only when the listing itself fails). *)
Theorem resync_after_mutation (env : Env) (w : World) :
  (forall d s',
      In (EvSaveDocument d) (emitted w (snd (confirmUpload env w))) ->
      saveDocument d (store w) = Ok s' ->
      filter storage_event (emitted w (snd (confirmUpload env w)))
        = [EvSaveDocument d; EvGetDocuments] /\
      store (snd (confirmUpload env w)) = s' /\
      documents (app (snd (confirmUpload env w)))
        = reloaded s' (documents (app w))) /\
  (forall d s',
      In (EvSaveDocument d) (emitted w (snd (handleCreatePDF env w))) ->
      saveDocument d (store w) = Ok s' ->
      filter storage_event (emitted w (snd (handleCreatePDF env w)))
        = [EvSaveDocument d; EvGetDocuments] /\
      store (snd (handleCreatePDF env w)) = s' /\
      documents (app (snd (handleCreatePDF env w)))
        = reloaded s' (documents (app w))) /\
  (forall i s',
      env_confirm env = true ->
      deleteDocument i (store w) = Ok s' ->
      filter storage_event (emitted w (snd (deleteDoc env i w)))
        = [EvDeleteDocument i; EvGetDocuments] /\
      store (snd (deleteDoc env i w)) = s' /\
      documents (app (snd (deleteDoc env i w)))
        = reloaded s' (documents (app w))).
Proof.
  split; [|split].
  - intros d s'. run. outcomes; traces; cbn; intros Hin Hsave;
      repeat match goal with
             | H : _ \/ _ |- _ => destruct H
             | H : False |- _ => destruct H
             | H : EvSaveDocument _ = EvSaveDocument _ |- _ =>
                 injection H as <-
             | H : _ = EvSaveDocument _ |- _ => discriminate H
             end;
      try congruence;
      unfold reloaded;
      match goal with
      | H : getDocuments ?s = _ |- _ =>
          replace s' with s by congruence; rewrite H
      end;
      auto.
  - intros d s'. run. outcomes; traces; cbn; intros Hin Hsave;
      repeat match goal with
             | H : _ \/ _ |- _ => destruct H
             | H : False |- _ => destruct H
             | H : EvSaveDocument _ = EvSaveDocument _ |- _ =>
                 injection H as <-
             | H : _ = EvSaveDocument _ |- _ => discriminate H
             end;
      try congruence;
      unfold reloaded;
      match goal with
      | H : getDocuments ?s = _ |- _ =>
          replace s' with s by congruence; rewrite H
      end;
      auto.
  - intros i s' Hyes Hdel. run. rewrite Hyes. cbn. rewrite Hdel. cbn.
    unfold reloaded.
    destruct (getDocuments s'); cbn; traces; cbn; auto.
Qed.
End CachedView.

(* ================================================================= *)
(** ** Rejections and failures *)

Section Failures.
Context {storage : StorageService} {pdf : JsPDF}.

(** C5.  When the factory throws, [handleCreatePDF] completes normally: it
    logs the error and alerts the user, asks nothing of the store, and
    leaves the store and the whole controller state, cache included, as
    they were. *)
Theorem handleCreatePDF_factory_failure (env : Env) (w : World)
    (e : Error) :
  JS.trim (creatorTitle (app w)) <> [] ->
  JS.trim (creatorContent (app w)) <> [] ->
  createPDF (env_ambient env) (creatorTitle (app w))
    (creatorContent (app w)) = Throw e ->
  fst (handleCreatePDF env w) = Ok tt /\
  store (snd (handleCreatePDF env w)) = store w /\
  app (snd (handleCreatePDF env w)) = app w /\
  emitted w (snd (handleCreatePDF env w))
    = [EvCreatePDF (creatorTitle (app w)) (creatorContent (app w));
       EvConsoleError [] e;
       EvAlert "Erro ao criar PDF. Verifique se o texto não contém caracteres especiais não suportados."].
Proof.
  intros Ht Hc Hpdf. run.
  destruct (JS.trim (creatorTitle (app w))); [congruence|].
  destruct (JS.trim (creatorContent (app w))); [congruence|].
  cbn. rewrite Hpdf. cbn. traces.
  destruct w, app0; auto.
Qed.

(** C8.  When the trimmed title or the trimmed content is empty,
    [handleCreatePDF] only alerts the user: no call to the factory, none
    to the store, and the store and the controller state are as before. *)
Theorem handleCreatePDF_rejects_blank (env : Env) (w : World) :
  JS.trim (creatorTitle (app w)) = [] \/
  JS.trim (creatorContent (app w)) = [] ->
  fst (handleCreatePDF env w) = Ok tt /\
  store (snd (handleCreatePDF env w)) = store w /\
  app (snd (handleCreatePDF env w)) = app w /\
  emitted w (snd (handleCreatePDF env w))
    = [EvAlert "Por favor, adicione um título e conteúdo."] /\
  Forall (fun ev => storage_event ev = false /\ factory_event ev = false)
    (emitted w (snd (handleCreatePDF env w))).
Proof.
  intros Hblank. run.
  assert (Hguard :
            (negb (JS.truthy (JS.trim (creatorTitle (app w))))
             || negb (JS.truthy (JS.trim (creatorContent (app w)))))%bool
            = true).
  { destruct Hblank as [-> | ->]; cbn; auto using orb_true_r. }
  rewrite Hguard. cbn. traces.
  destruct w, app0; cbn; repeat split; auto.
Qed.

(** C9.  With no file chosen, [confirmUpload] returns at once: nothing is
    asked of the store and the world, controller state included, is
    untouched. *)
Theorem confirmUpload_without_file (env : Env) (w : World) :
  uploadFile (app w) = None ->
  confirmUpload env w = (Ok tt, w).
Proof.
  intros Hnone. run. now rewrite Hnone.
Qed.
End Failures.

(* ================================================================= *)
(** ** Object URLs *)

Section ObjectURLs.
Context {storage : StorageService} {pdf : JsPDF}.

Lemma revoked_not_live (fired : list Timer) (u : ObjectURL)
    (l : list (ObjectURL * ArrayBuffer)) :
  revoked_by fired u = true ->
  existsb (fun e => Nat.eqb (fst e) u)
    (filter (fun e => negb (revoked_by fired (fst e))) l) = false.
Proof.
  intros Hrev. induction l as [|[v b] l IH]; simpl; [reflexivity|].
  destruct (revoked_by fired v) eqn:Hv; simpl; [exact IH|].
  rewrite IH, orb_false_r.
  apply Nat.eqb_neq. intros ->. congruence.
Qed.

Lemma kept_live (fired : list Timer) (u : ObjectURL) (b : ArrayBuffer)
    (l : list (ObjectURL * ArrayBuffer)) :
  revoked_by fired u = false ->
  In (u, b) l ->
  existsb (fun e => Nat.eqb (fst e) u)
    (filter (fun e => negb (revoked_by fired (fst e))) l) = true.
Proof.
  intros Hkeep Hin. apply existsb_exists. exists (u, b). split.
  - apply filter_In. split; [exact Hin|]. simpl. now rewrite Hkeep.
  - apply Nat.eqb_refl.
Qed.

Lemma known_not_revoked (l : list Timer) (u : ObjectURL) (t : Z) :
  (forall tm, In tm l -> (revokes tm < u)%nat) ->
  revoked_by (filter (fun tm => (due tm <=? t)%Z) l) u = false.
Proof.
  intros Hknown. unfold revoked_by.
  destruct (existsb _ _) eqn:E; [|reflexivity].
  apply existsb_exists in E as (tm & Hin & Heq).
  apply filter_In in Hin as [Hin _].
  apply Nat.eqb_eq in Heq. specialize (Hknown tm Hin). lia.
Qed.

(** C7, as the code has it.  [openDoc] registers a fresh object URL and
    queues one timer that revokes it 60000 ms later; the controller keeps
    no record of the URL.  Once the event loop has passed that time the
    URL is revoked; until then it stays live, also across a navigation. *)
Theorem openDoc_revokes_after_a_minute (env : Env) (doc : PDFDocument)
    (w : World) :
  timers_known w ->
  fst (openDoc env doc w) = Ok tt /\
  app (snd (openDoc env doc w)) = app w /\
  live (nextURL w) (snd (openDoc env doc w)) = true /\
  timers (snd (openDoc env doc w))
    = timers w ++ [mkTimer (clock w + 60000) (nextURL w)] /\
  (forall t, (clock w + 60000 <= t)%Z ->
     live (nextURL w) (run_timers t (snd (openDoc env doc w))) = false) /\
  (forall t v, (t < clock w + 60000)%Z ->
     live (nextURL w)
       (run_timers t (snd (navigate v (snd (openDoc env doc w))))) = true).
Proof.
  intros Hknown.
  assert (Hshape :
            exists tr,
              openDoc env doc w =
              (Ok tt,
               mkWorld (app w) (store w) tr (clock w)
                 (objectURLs w ++ [(nextURL w, data doc)])
                 (S (nextURL w))
                 (timers w ++ [mkTimer (clock w + 60000) (nextURL w)]))).
  { run. destruct (env_popup env); cbn; eexists; reflexivity. }
  destruct Hshape as [tr ->]. cbn.
  split; [reflexivity|]. split; [reflexivity|]. split.
  { unfold live. cbn. rewrite existsb_app. cbn.
    now rewrite Nat.eqb_refl, orb_true_r. }
  split; [reflexivity|]. split.
  - intros t Ht. unfold live, run_timers. cbn.
    apply revoked_not_live.
    rewrite filter_app. cbn.
    destruct (Z.leb_spec (clock w + 60000) t); [|lia].
    unfold revoked_by. rewrite existsb_app. cbn.
    now rewrite Nat.eqb_refl, orb_true_r.
  - intros t v Ht. unfold live, run_timers, navigate, set, with_app. cbn.
    apply kept_live with (b := data doc).
    + rewrite filter_app. cbn.
      destruct (Z.leb_spec (clock w + 60000) t); [lia|].
      rewrite app_nil_r. now apply known_not_revoked.
    + apply in_or_app. right. now left.
Qed.
End ObjectURLs.

(* ================================================================= *)
(** ** The statements at concrete inputs *)

Module Witness.

Import Sample.



Lemma loadDocuments_most_recent_first_witness :
  getDocuments (store (world initialState shelf))
    = Ok [doc "b" 20; doc "a" 10; doc "c" 30] /\
  documents (app (snd (loadDocuments (world initialState shelf))))
    = [doc "c" 30; doc "b" 20; doc "a" 10].
Proof.
  assert (H : getDocuments (store (world initialState shelf))
              = Ok [doc "b" 20; doc "a" 10; doc "c" 30])
    by reflexivity.
  split; [exact H|].
  refine (proj2 (proj2 (proj2
            (loadDocuments_most_recent_first (world initialState shelf)
               _ H)))
            (doc "a" 10) (doc "b" 20) (doc "c" 30) _ _ _).
  - apply perm_swap.
  - simpl; lia.
  - simpl; lia.
Defined.

Lemma saved_type_witness :
  In (EvSaveDocument uploadedText)
    (emitted (uploadWorld textFile)
       (snd (confirmUpload env (uploadWorld textFile)))) /\
  type uploadedText = file_type textFile.
Proof.
  assert (H : In (EvSaveDocument uploadedText)
                (emitted (uploadWorld textFile)
                   (snd (confirmUpload env (uploadWorld textFile)))))
    by (vm_compute; left; reflexivity).
  split; [exact H|].
  exact (proj2 (saved_type env (uploadWorld textFile) uploadedText)
           textFile eq_refl H).
Defined.

(** C3 fails on the upload path: a chosen file reported as [text/plain] is
    stored with that type. *)
Lemma upload_keeps_reported_type :
  In (EvSaveDocument uploadedText)
    (emitted (uploadWorld textFile)
       (snd (confirmUpload env (uploadWorld textFile)))) /\
  getDocuments (store (snd (confirmUpload env (uploadWorld textFile))))
    = Ok [uploadedText] /\
  type uploadedText = JS.lit "text/plain" /\
  type uploadedText <> JS.lit "application/pdf".
Proof.
  split; [vm_compute; left; reflexivity|].
  split; [reflexivity|].
  split; [reflexivity|].
  vm_compute. discriminate.
Qed.

Lemma resync_after_mutation_witness :
  In (EvSaveDocument uploadedPdf)
    (emitted (uploadWorld pdfFile)
       (snd (confirmUpload env (uploadWorld pdfFile)))) /\
  saveDocument uploadedPdf (store (uploadWorld pdfFile))
    = Ok (MemStore.mk [uploadedPdf] true 1000) /\
  filter storage_event
    (emitted (uploadWorld pdfFile)
       (snd (confirmUpload env (uploadWorld pdfFile))))
    = [EvSaveDocument uploadedPdf; EvGetDocuments] /\
  documents (app (snd (confirmUpload env (uploadWorld pdfFile))))
    = [uploadedPdf].
Proof.
  assert (H1 : In (EvSaveDocument uploadedPdf)
                 (emitted (uploadWorld pdfFile)
                    (snd (confirmUpload env (uploadWorld pdfFile)))))
    by (vm_compute; left; reflexivity).
  assert (H2 : saveDocument uploadedPdf (store (uploadWorld pdfFile))
               = Ok (MemStore.mk [uploadedPdf] true 1000))
    by reflexivity.
  split; [exact H1|]. split; [exact H2|].
  destruct (proj1 (resync_after_mutation env (uploadWorld pdfFile))
              uploadedPdf _ H1 H2) as (Hev & _ & Hdocs).
  split; [exact Hev|].
  rewrite Hdocs. reflexivity.
Defined.

Lemma handleCreatePDF_factory_failure_witness :
  JS.trim (creatorTitle (app euroWorld)) <> [] /\
  JS.trim (creatorContent (app euroWorld)) <> [] /\
  createPDF (env_ambient env) (creatorTitle (app euroWorld))
    (creatorContent (app euroWorld)) = Throw UnsupportedContent /\
  fst (handleCreatePDF env euroWorld) = Ok tt /\
  store (snd (handleCreatePDF env euroWorld)) = store euroWorld /\
  app (snd (handleCreatePDF env euroWorld)) = app euroWorld.
Proof.
  assert (H1 : JS.trim (creatorTitle (app euroWorld)) <> [])
    by (vm_compute; discriminate).
  assert (H2 : JS.trim (creatorContent (app euroWorld)) <> [])
    by (vm_compute; discriminate).
  assert (H3 : createPDF (env_ambient env) (creatorTitle (app euroWorld))
                 (creatorContent (app euroWorld))
               = Throw UnsupportedContent)
    by reflexivity.
  split; [exact H1|]. split; [exact H2|]. split; [exact H3|].
  destruct (handleCreatePDF_factory_failure env euroWorld _ H1 H2 H3)
    as (Hr & Hs & Ha & _).
  auto.
Defined.

Lemma handleCreatePDF_rejects_blank_witness :
  (JS.trim (creatorTitle (app blankWorld)) = [] \/
   JS.trim (creatorContent (app blankWorld)) = []) /\
  emitted blankWorld (snd (handleCreatePDF env blankWorld))
    = [EvAlert "Por favor, adicione um título e conteúdo."].
Proof.
  assert (H : JS.trim (creatorTitle (app blankWorld)) = [] \/
              JS.trim (creatorContent (app blankWorld)) = [])
    by (left; reflexivity).
  split; [exact H|].
  exact (proj1 (proj2 (proj2 (proj2
           (handleCreatePDF_rejects_blank env blankWorld H))))).
Defined.

Lemma confirmUpload_without_file_witness :
  uploadFile (app notesWorld) = None /\
  confirmUpload env notesWorld = (Ok tt, notesWorld).
Proof.
  split; [reflexivity|].
  apply (confirmUpload_without_file env notesWorld). reflexivity.
Defined.

Lemma upload_default_name_witness :
  uploadFile (app (uploadWorld pdfFile)) = Some pdfFile /\
  uploadName (app (uploadWorld pdfFile)) = [] /\
  In (EvSaveDocument uploadedPdf)
    (emitted (uploadWorld pdfFile)
       (snd (confirmUpload env (uploadWorld pdfFile)))) /\
  file_name pdfFile = JS.lit "a.pdf.b.pdf" /\
  name uploadedPdf = JS.lit "a.b.pdf".
Proof.
  assert (H : In (EvSaveDocument uploadedPdf)
                (emitted (uploadWorld pdfFile)
                   (snd (confirmUpload env (uploadWorld pdfFile)))))
    by (vm_compute; left; reflexivity).
  split; [reflexivity|]. split; [reflexivity|]. split; [exact H|].
  split; [reflexivity|].
  rewrite (proj1 (upload_default_name env (uploadWorld pdfFile) pdfFile
                    uploadedPdf eq_refl eq_refl H)).
  reflexivity.
Defined.

Lemma openDoc_revokes_after_a_minute_witness :
  timers_known notesWorld /\
  live 0 (snd (openDoc env (doc "a" 10) notesWorld)) = true /\
  live 0 (run_timers 61000 (snd (openDoc env (doc "a" 10) notesWorld)))
    = false.
Proof.
  assert (H : timers_known notesWorld) by (intros tm []).
  split; [exact H|].
  destruct (openDoc_revokes_after_a_minute env (doc "a" 10) notesWorld H)
    as (_ & _ & Hlive & _ & Hgone & _).
  split; [exact Hlive|].
  apply (Hgone 61000%Z). simpl. lia.
Defined.

(** C7 fails as a scoped release: after [openDoc], leaving the view does
    not release the handle; 59999 ms later it is still live and only the
    queued timer will revoke it. *)
Lemma openDoc_handle_outlives_navigation :
  ~ released_on_navigation 0 (snd (openDoc env (doc "a" 10) notesWorld)) /\
  live 0
    (run_timers 60999
       (snd (navigate create
               (snd (openDoc env (doc "a" 10) notesWorld))))) = true /\
  timers (snd (openDoc env (doc "a" 10) notesWorld)) = [mkTimer 61000 0] /\
  app (snd (openDoc env (doc "a" 10) notesWorld)) = app notesWorld.
Proof.
  split.
  - intros H. specialize (H create). vm_compute in H. discriminate.
  - repeat split.
Qed.
End Witness.


(* ================================================================= *)
(** ** Further properties of the handlers *)

(** Unfold the handlers of the rest of the component as well. *)
Ltac run_all :=
  unfold mount, toggleDarkMode, loadend, handleUploadCoverSelect,
    handleCreatorCoverSelect, processCoverImage;
  run.

Section Exceptions.
Context {storage : StorageService} {pdf : JsPDF}.

(** No exception leaves [loadDocuments], [confirmUpload], [handleCreatePDF],
    [openDoc] or [handleFileSelect], whatever the store, the factory and the
    chosen file do. *)
Theorem handlers_never_throw (env : Env) (w : World) :
  fst (loadDocuments w) = Ok tt /\
  fst (confirmUpload env w) = Ok tt /\
  fst (handleCreatePDF env w) = Ok tt /\
  (forall doc, fst (openDoc env doc w) = Ok tt) /\
  (forall files, fst (handleFileSelect files w) = Ok tt).
Proof.
  repeat split; intros; run; outcomes; reflexivity.
Qed.

(** When the user declines the confirmation, [deleteDoc] does nothing but
    ask: no call to the store, and store and controller state are as
    before. *)
Theorem deleteDoc_declined (env : Env) (i : jsstring) (w : World) :
  env_confirm env = false ->
  deleteDoc env i w
  = (Ok tt, log (EvConfirm "Tem certeza que deseja excluir este PDF?") w).
Proof.
  intros Hno. run. rewrite Hno. reflexivity.
Qed.

(** When the store refuses the deletion, [deleteDoc] lets the exception
    escape: the store is not listed again, the user gets no alert, and the
    store and the controller state stay as they were. *)
Theorem deleteDoc_failure (env : Env) (i : jsstring) (w : World) (e : Error) :
  env_confirm env = true ->
  deleteDocument i (store w) = Throw e ->
  fst (deleteDoc env i w) = Throw e /\
  store (snd (deleteDoc env i w)) = store w /\
  app (snd (deleteDoc env i w)) = app w /\
  emitted w (snd (deleteDoc env i w))
    = [EvConfirm "Tem certeza que deseja excluir este PDF?";
       EvDeleteDocument i].
Proof.
  intros Hyes Hdel. run. rewrite Hyes. cbn. rewrite Hdel. cbn. traces.
  auto.
Qed.
End Exceptions.

Section Upload.
Context {storage : StorageService} {pdf : JsPDF}.

(** A failed upload (the file cannot be read, or the store refuses the
    record) alerts the user and keeps the dialog as it was: file, name, cover
    and cache are untouched, the store is not listed, the processing flag is
    down and the confirm button is enabled again. *)
Theorem confirmUpload_failure_keeps_form (env : Env) (w : World) (f : File)
    (e : Error) :
  uploadFile (app w) = Some f ->
  file_arrayBuffer f = Throw e \/
  (exists buf, file_arrayBuffer f = Ok buf /\
               saveDocument (uploadedDoc env (app w) f buf (clock w))
                 (store w) = Throw e) ->
  store (snd (confirmUpload env w)) = store w /\
  app (snd (confirmUpload env w)) = setIsProcessing false (app w) /\
  confirmDisabled (app (snd (confirmUpload env w))) = false /\
  (exists evs, emitted w (snd (confirmUpload env w))
               = evs ++ [EvAlert "Erro ao salvar arquivo."]) /\
  ~ In EvGetDocuments (emitted w (snd (confirmUpload env w))).
Proof.
  intros Hf Hfail. unfold confirmDisabled. run. rewrite Hf. cbn.
  destruct Hfail as [Hbuf | (buf & Hbuf & Hsave)]; rewrite Hbuf; cbn.
  - traces. rewrite Hf. cbn.
    repeat split; auto.
    + now exists [].
    + intros [H|[]]. discriminate H.
  - unfold uploadedDoc in Hsave. cbn in Hsave. rewrite Hsave. cbn. traces.
    rewrite Hf. cbn.
    repeat split; auto.
    + now eexists [_].
    + intros [H|[H|[]]]; discriminate H.
Qed.

(** A successful upload closes the dialog and empties it (file, name and
    cover), lowers the processing flag, and leaves the creation form, the
    view and the theme alone; this holds also when the listing that follows
    the save fails. *)
Theorem confirmUpload_success_resets_form (env : Env) (w : World) (f : File)
    (buf : ArrayBuffer) (s' : Store) :
  uploadFile (app w) = Some f ->
  file_arrayBuffer f = Ok buf ->
  saveDocument (uploadedDoc env (app w) f buf (clock w)) (store w) = Ok s' ->
  let st' := app (snd (confirmUpload env w)) in
  store (snd (confirmUpload env w)) = s' /\
  uploadFile st' = None /\ uploadName st' = [] /\ uploadCover st' = None /\
  showUploadModal st' = false /\ isProcessing st' = false /\
  confirmDisabled st' = true /\
  creatorTitle st' = creatorTitle (app w) /\
  creatorContent st' = creatorContent (app w) /\
  creatorCover st' = creatorCover (app w) /\
  viewMode st' = viewMode (app w) /\
  darkMode st' = darkMode (app w).
Proof.
  intros Hf Hbuf Hsave. unfold uploadedDoc in Hsave. cbn in Hsave. cbv zeta.
  unfold confirmDisabled. run. rewrite Hf. cbn. rewrite Hbuf. cbn.
  rewrite Hsave. cbn.
  destruct (getDocuments s'); cbn; repeat split; reflexivity.
Qed.
End Upload.

Section Creation.
Context {storage : StorageService} {pdf : JsPDF}.

(** A successful creation stores the record, empties the creation form,
    returns to the library view and ends with the success alert, also when
    the listing that follows the save fails; the upload dialog is left
    alone. *)
Theorem handleCreatePDF_success (env : Env) (w : World) (buf : ArrayBuffer)
    (s' : Store) :
  JS.trim (creatorTitle (app w)) <> [] ->
  JS.trim (creatorContent (app w)) <> [] ->
  createPDF (env_ambient env) (creatorTitle (app w))
    (creatorContent (app w)) = Ok buf ->
  saveDocument (createdDoc env (app w) buf (clock w)) (store w) = Ok s' ->
  let st' := app (snd (handleCreatePDF env w)) in
  store (snd (handleCreatePDF env w)) = s' /\
  creatorTitle st' = [] /\ creatorContent st' = [] /\
  creatorCover st' = None /\ viewMode st' = library /\
  documents st' = reloaded s' (documents (app w)) /\
  uploadFile st' = uploadFile (app w) /\
  uploadName st' = uploadName (app w) /\
  uploadCover st' = uploadCover (app w) /\
  showUploadModal st' = showUploadModal (app w) /\
  (exists evs, emitted w (snd (handleCreatePDF env w))
               = evs ++ [EvAlert "PDF criado com sucesso!"]).
Proof.
  intros Ht Hc Hpdf Hsave. unfold createdDoc in Hsave. cbn in Hsave.
  cbv zeta.
  unfold reloaded. run.
  destruct (JS.trim (creatorTitle (app w))); [congruence|].
  destruct (JS.trim (creatorContent (app w))); [congruence|].
  cbn. rewrite Hpdf. cbn. rewrite Hsave. cbn.
  destruct (getDocuments s'); cbn; traces; repeat split; try reflexivity.
  - now eexists [_; _; _].
  - now eexists [_; _; _; _].
Qed.

(** When the factory succeeds and the store refuses the record, the user is
    shown the same alert as for a text the factory cannot render; the form
    is kept, the view does not change, and the store is not listed. *)
Theorem handleCreatePDF_save_failure (env : Env) (w : World)
    (buf : ArrayBuffer) (e : Error) :
  JS.trim (creatorTitle (app w)) <> [] ->
  JS.trim (creatorContent (app w)) <> [] ->
  createPDF (env_ambient env) (creatorTitle (app w))
    (creatorContent (app w)) = Ok buf ->
  saveDocument (createdDoc env (app w) buf (clock w)) (store w) = Throw e ->
  store (snd (handleCreatePDF env w)) = store w /\
  app (snd (handleCreatePDF env w)) = app w /\
  emitted w (snd (handleCreatePDF env w))
    = [EvCreatePDF (creatorTitle (app w)) (creatorContent (app w));
       EvSaveDocument (createdDoc env (app w) buf (clock w));
       EvConsoleError [] e;
       EvAlert "Erro ao criar PDF. Verifique se o texto não contém caracteres especiais não suportados."].
Proof.
  intros Ht Hc Hpdf Hsave. unfold createdDoc in *. cbn in Hsave. run.
  destruct (JS.trim (creatorTitle (app w))); [congruence|].
  destruct (JS.trim (creatorContent (app w))); [congruence|].
  cbn. rewrite Hpdf. cbn. rewrite Hsave. cbn. traces. auto.
Qed.
End Creation.

Section Loading.
Context {storage : StorageService} {pdf : JsPDF}.

Lemma insert_filter_key (key : Z) (d : PDFDocument) (l : list PDFDocument) :
  filter (fun a => (addedAt a =? key)%Z)
    (JS.insert (fun a b => (addedAt b - addedAt a)%Z) d l)
  = filter (fun a => (addedAt a =? key)%Z) (d :: l).
Proof.
  induction l as [|y l IH]; [reflexivity|].
  cbn [JS.insert].
  destruct (Z.leb_spec (addedAt y - addedAt d) 0) as [Hle|Hgt];
    [reflexivity|].
  cbn [filter] in *. rewrite IH.
  destruct (Z.eqb_spec (addedAt d) key), (Z.eqb_spec (addedAt y) key);
    try reflexivity.
  lia.
Qed.

Lemma sort_filter_key (key : Z) (l : list PDFDocument) :
  filter (fun a => (addedAt a =? key)%Z)
    (JS.sort (fun a b => (addedAt b - addedAt a)%Z) l)
  = filter (fun a => (addedAt a =? key)%Z) l.
Proof.
  induction l as [|d l IH]; [reflexivity|].
  cbn [JS.sort].
  rewrite insert_filter_key. cbn [filter].
  now rewrite IH.
Qed.

Lemma sort_sorted_id (l : list PDFDocument) :
  StronglySorted recent_first l ->
  JS.sort (fun a b => (addedAt b - addedAt a)%Z) l = l.
Proof.
  induction 1 as [|d l Hl IH Hd]; [reflexivity|].
  cbn [JS.sort]. rewrite IH.
  destruct l as [|y l]; [reflexivity|].
  cbn [JS.insert].
  inversion Hd as [|? ? Hdy _]; subst. unfold recent_first in Hdy.
  destruct (Z.leb_spec (addedAt y - addedAt d) 0); [reflexivity|lia].
Qed.

(** Documents created at the same instant are shown in the order in which
    the store lists them: the sort of [loadDocuments] does not reorder
    ties. *)
Theorem loadDocuments_keeps_store_order_on_ties (w : World)
    (docs : list PDFDocument) (t : Z) :
  getDocuments (store w) = Ok docs ->
  filter (fun d => (addedAt d =? t)%Z)
    (documents (app (snd (loadDocuments w))))
  = filter (fun d => (addedAt d =? t)%Z) docs.
Proof.
  intros Hlist. rewrite loadDocuments_run, Hlist. cbn.
  apply sort_filter_key.
Qed.

(** A listing that already comes most recent first is cached as it is. *)
Theorem loadDocuments_keeps_sorted_listing (w : World)
    (docs : list PDFDocument) :
  getDocuments (store w) = Ok docs ->
  StronglySorted recent_first docs ->
  documents (app (snd (loadDocuments w))) = docs.
Proof.
  intros Hlist Hsorted. rewrite loadDocuments_run, Hlist. cbn.
  now apply sort_sorted_id.
Qed.

(** A listing that fails is silent for the user: the error goes to the
    console only, and the cache, the rest of the state and the store stay as
    they were. *)
Theorem loadDocuments_failure_is_silent (w : World) (e : Error) :
  getDocuments (store w) = Throw e ->
  store (snd (loadDocuments w)) = store w /\
  app (snd (loadDocuments w)) = app w /\
  emitted w (snd (loadDocuments w))
    = [EvGetDocuments; EvConsoleError ["Failed to load documents"%string] e].
Proof.
  intros Hlist. rewrite loadDocuments_run, Hlist. cbn.
  unfold log. traces. auto.
Qed.

(** The effect run at start-up never throws, writes nothing to the store,
    caches the sorted listing and turns the dark theme on when the system
    prefers it.  When the store cannot be listed the cache keeps its value:
    started from the initial state the library shows as empty, and no alert
    tells the user why. *)
Theorem mount_loads (prefersDark : bool) (w : World) :
  fst (mount prefersDark w) = Ok tt /\
  store (snd (mount prefersDark w)) = store w /\
  documents (app (snd (mount prefersDark w)))
    = reloaded (store w) (documents (app w)) /\
  darkMode (app (snd (mount prefersDark w)))
    = (prefersDark || darkMode (app w))%bool /\
  ((exists e, getDocuments (store w) = Throw e) ->
   documents (app w) = [] ->
   libraryEmpty (app (snd (mount prefersDark w))) = true /\
   forall msg, ~ In (EvAlert msg) (emitted w (snd (mount prefersDark w)))).
Proof.
  unfold reloaded, libraryEmpty. run_all.
  destruct (getDocuments (store w)) as [docs|e]; cbn;
    destruct prefersDark; cbn; traces;
    (split; [reflexivity|]); (split; [reflexivity|]);
    (split; [reflexivity|]); (split; [reflexivity|]).
  1, 2: intros [e' He']; discriminate He'.
  all: intros _ Hempty; rewrite Hempty; split; [reflexivity|];
    intros msg Hin; simpl in Hin;
    destruct Hin as [Hin|[Hin|[]]]; discriminate Hin.
Qed.
End Loading.

Section Selection.
Context {storage : StorageService} {pdf : JsPDF}.

(** An empty selection changes nothing; a selection made after a name was
    typed replaces the file and keeps the typed name. *)
Theorem handleFileSelect_keeps_typed_name (w : World) :
  handleFileSelect None w = (Ok tt, w) /\
  handleFileSelect (Some []) w = (Ok tt, w) /\
  (forall f rest,
      uploadName (app w) <> [] ->
      app (snd (handleFileSelect (Some (f :: rest)) w))
      = setUploadFile (Some f) (app w)).
Proof.
  split; [reflexivity|]. split; [reflexivity|].
  intros f rest Hname. run.
  destruct (uploadName (app w)); [congruence|reflexivity].
Qed.

(** Choosing a second file does not rename the upload: with no name typed,
    the name field is filled from the first file chosen, and a record then
    uploaded carries the bytes, size and type of the second file under the
    name taken from the first. *)
Theorem reselected_file_keeps_first_name (env : Env) (w : World)
    (f1 f2 : File) (d : PDFDocument) :
  uploadName (app w) = [] ->
  JS.replace (JS.lit ".pdf") [] (file_name f1) <> [] ->
  let w2 := snd (handleFileSelect (Some [f2])
                   (snd (handleFileSelect (Some [f1]) w))) in
  In (EvSaveDocument d) (emitted w2 (snd (confirmUpload env w2))) ->
  name d = JS.replace (JS.lit ".pdf") [] (file_name f1) /\
  file_arrayBuffer f2 = Ok (data d) /\
  size d = file_size f2 /\
  type d = file_type f2.
Proof.
  intros Hname Hstrip w2 Hin.
  assert (Hw2 : w2
                = with_app
                    (fun st =>
                       setUploadFile (Some f2)
                         (setUploadName
                            (JS.replace (JS.lit ".pdf") [] (file_name f1))
                            (setUploadFile (Some f1) st))) w).
  { subst w2. run. rewrite Hname. cbn.
    destruct (JS.replace _ _ (file_name f1)) eqn:E; [congruence|].
    reflexivity. }
  rewrite Hw2 in Hin.
  apply confirmUpload_saves with (f := f2) in Hin; [|reflexivity].
  destruct Hin as (buf & Hbuf & ->). cbn.
  destruct (JS.replace _ _ (file_name f1)) eqn:E; [congruence|].
  auto.
Qed.
End Selection.

Section Covers.
Context {storage : StorageService} {pdf : JsPDF}.

(** Choosing a cover file in the upload dialog only starts a reader: the
    handler leaves the world as it is, and an empty selection starts
    nothing.  When the read ends, [uploadCover] becomes [reader.result]
    ([null] after a failed read, whatever cover was there before), and a
    record uploaded after that carries it.  A record uploaded while the
    read is still going on carries the cover of the state as it was. *)
Theorem upload_cover_set_when_read_ends (env : Env) (w : World) :
  handleUploadCoverSelect None w = (Ok None, w) /\
  handleUploadCoverSelect (Some []) w = (Ok None, w) /\
  (forall c rest,
      exists rd,
        handleUploadCoverSelect (Some (c :: rest)) w = (Ok (Some rd), w) /\
        reading_file rd = c /\
        (forall result w1,
            loadend rd result w1
            = (Ok tt, with_app (setUploadCover result) w1)) /\
        (forall result d,
            In (EvSaveDocument d)
              (emitted (snd (loadend rd result w))
                 (snd (confirmUpload env (snd (loadend rd result w))))) ->
            coverImage d = JS.or_undefined result)) /\
  (forall d,
      In (EvSaveDocument d) (emitted w (snd (confirmUpload env w))) ->
      coverImage d = JS.or_undefined (uploadCover (app w))).
Proof.
  split; [reflexivity|]. split; [reflexivity|]. split.
  - intros c rest. eexists. split; [reflexivity|]. split; [reflexivity|].
    split; [reflexivity|].
    intros result d.
    change (snd (loadend _ result w))
      with (with_app (setUploadCover result) w).
    destruct (uploadFile (app w)) as [f|] eqn:Hf.
    + intros Hin.
      apply confirmUpload_saves with (f := f) in Hin; [|exact Hf].
      destruct Hin as (buf & _ & ->). reflexivity.
    + unfold confirmUpload, render, ret, with_app. cbn. rewrite Hf. cbn.
      rewrite skipn_all. intros [].
  - intros d.
    destruct (uploadFile (app w)) as [f|] eqn:Hf.
    + intros Hin.
      apply confirmUpload_saves with (f := f) in Hin; [|exact Hf].
      destruct Hin as (buf & _ & ->). reflexivity.
    + unfold confirmUpload, render, ret. rewrite Hf.
      unfold emitted. cbn. rewrite skipn_all. intros [].
Qed.

(** The same for the creation form: choosing a cover only starts a reader;
    when the read ends [creatorCover] becomes [reader.result], and a record
    created after that carries it, while a record created during the read
    carries the cover of the state as it was. *)
Theorem creator_cover_set_when_read_ends (env : Env) (w : World) :
  handleCreatorCoverSelect None w = (Ok None, w) /\
  handleCreatorCoverSelect (Some []) w = (Ok None, w) /\
  (forall c rest,
      exists rd,
        handleCreatorCoverSelect (Some (c :: rest)) w = (Ok (Some rd), w) /\
        reading_file rd = c /\
        (forall result w1,
            loadend rd result w1
            = (Ok tt, with_app (setCreatorCover result) w1)) /\
        (forall result d,
            In (EvSaveDocument d)
              (emitted (snd (loadend rd result w))
                 (snd (handleCreatePDF env (snd (loadend rd result w))))) ->
            coverImage d = JS.or_undefined result /\
            name d = creatorTitle (app w))) /\
  (forall d,
      In (EvSaveDocument d) (emitted w (snd (handleCreatePDF env w))) ->
      coverImage d = JS.or_undefined (creatorCover (app w))).
Proof.
  split; [reflexivity|]. split; [reflexivity|]. split.
  - intros c rest. eexists. split; [reflexivity|]. split; [reflexivity|].
    split; [reflexivity|].
    intros result d Hin.
    apply handleCreatePDF_saves in Hin.
    destruct Hin as (buf & _ & ->). split; reflexivity.
  - intros d Hin.
    apply handleCreatePDF_saves in Hin.
    destruct Hin as (buf & _ & ->). reflexivity.
Qed.

(** After a successful upload the cover field is empty: a record uploaded
    next, with no cover read ending in between, has no cover.  But the
    reader of a cover chosen before that upload may end after it: its
    callback sets the cover field again, and the record uploaded next
    carries that late cover.  Either way the record is named after its own
    file. *)
Theorem late_cover_carried_to_next_upload (env : Env) (w : World) (f : File)
    (buf : ArrayBuffer) (s' : Store) :
  uploadFile (app w) = Some f ->
  file_arrayBuffer f = Ok buf ->
  saveDocument (uploadedDoc env (app w) f buf (clock w)) (store w) = Ok s' ->
  (forall f2 rest env2 d,
      let w2 := snd (handleFileSelect (Some (f2 :: rest))
                       (snd (confirmUpload env w))) in
      In (EvSaveDocument d) (emitted w2 (snd (confirmUpload env2 w2))) ->
      coverImage d = None /\
      name d = JS.replace (JS.lit ".pdf") [] (file_name f2)) /\
  (forall c rest0 rd result f2 rest env2 d,
      fst (handleUploadCoverSelect (Some (c :: rest0)) w) = Ok (Some rd) ->
      let w2 := snd (handleFileSelect (Some (f2 :: rest))
                       (snd (loadend rd result
                               (snd (confirmUpload env w))))) in
      In (EvSaveDocument d) (emitted w2 (snd (confirmUpload env2 w2))) ->
      coverImage d = JS.or_undefined result /\
      name d = JS.replace (JS.lit ".pdf") [] (file_name f2)).
Proof.
  intros Hf Hbuf Hsave.
  destruct (confirmUpload_success_resets_form env w f buf s' Hf Hbuf Hsave)
    as (_ & _ & Hname & Hcover & _).
  cbv zeta in Hname, Hcover.
  split.
  - intros f2 rest env2 d w2.
    assert (Hw2 : w2
                  = with_app
                      (fun st =>
                         setUploadName
                           (JS.replace (JS.lit ".pdf") [] (file_name f2))
                           (setUploadFile (Some f2) st))
                      (snd (confirmUpload env w))).
    { subst w2. unfold handleFileSelect, render, bind, set. cbn.
      rewrite Hname. reflexivity. }
    rewrite Hw2. intros Hin.
    apply confirmUpload_saves with (f := f2) in Hin; [|reflexivity].
    destruct Hin as (b2 & _ & ->). cbn. rewrite Hcover. cbn.
    split; [reflexivity|].
    destruct (JS.replace _ _ (file_name f2)); reflexivity.
  - intros c rest0 rd result f2 rest env2 d Hrd w2.
    cbn in Hrd. injection Hrd as <-.
    assert (Hw2 : w2
                  = with_app
                      (fun st =>
                         setUploadName
                           (JS.replace (JS.lit ".pdf") [] (file_name f2))
                           (setUploadFile (Some f2) st))
                      (with_app (setUploadCover result)
                         (snd (confirmUpload env w)))).
    { subst w2. unfold handleFileSelect, render, bind, set, with_app,
        loadend. cbn.
      rewrite Hname. reflexivity. }
    rewrite Hw2. intros Hin.
    apply confirmUpload_saves with (f := f2) in Hin; [|reflexivity].
    destruct Hin as (b2 & _ & ->). cbn.
    split; [reflexivity|].
    destruct (JS.replace _ _ (file_name f2)); reflexivity.
Qed.
End Covers.

(* ================================================================= *)
(** ** Invariants of the mounted component *)

Section Invariants.
Context {storage : StorageService} {pdf : JsPDF}.

Lemma perform_documents (a : Action) (w : World) :
  documents (app (perform a w)) = documents (app w) \/
  exists docs,
    documents (app (perform a w))
    = JS.sort (fun x y => (addedAt y - addedAt x)%Z) docs.
Proof.
  destruct a; unfold perform, run_timers; run_all; outcomes; auto;
    right; eexists; reflexivity.
Qed.

Lemma mounted_documents (prefersDark : bool) (s : Store) (now : Z) :
  documents (app (mounted prefersDark s now))
  = match getDocuments s with
    | Ok docs => JS.sort (fun x y => (addedAt y - addedAt x)%Z) docs
    | Throw _ => []
    end.
Proof.
  unfold mounted. run_all.
  destruct (getDocuments s); destruct prefersDark; reflexivity.
Qed.

Lemma started_by_cover (a : Action) (w : World) :
  Forall cover_reading (started_by a w).
Proof.
  destruct a; cbn; try constructor;
    destruct files as [[|f l]|]; cbn; constructor;
    solve [left; reflexivity | right; reflexivity | constructor].
Qed.

(** What holds at the start and is kept by every action and by the end of
    every cover read holds in every world the component can reach. *)
Lemma reachable_invariant (P : World -> Prop) (w0 w : World) :
  P w0 ->
  (forall a w, P w -> P (perform a w)) ->
  (forall rd result w,
      cover_reading rd -> P w -> P (snd (loadend rd result w))) ->
  reachable w0 w -> P w.
Proof.
  intros H0 Hact Hload [rs Hrun].
  assert (H : P w /\ Forall cover_reading rs).
  { induction Hrun as [|rs w a _ [IHP IHrs] _
                       |rs1 rd rs2 w result _ [IHP IHrs]].
    - split; [exact H0|constructor].
    - split; [now apply Hact|].
      apply Forall_app. split; [apply started_by_cover|exact IHrs].
    - apply Forall_app in IHrs as [H1 H2].
      inversion H2 as [|? ? Hrd H2']; subst.
      split; [now apply Hload|].
      apply Forall_app. now split. }
  exact (proj1 H).
Qed.

(** From the moment the component is mounted, whatever the user does and
    whatever the store answers, the cached view is sorted most recent
    first. *)
Theorem cache_always_most_recent_first (prefersDark : bool) (s : Store)
    (now : Z) (w : World) :
  reachable (mounted prefersDark s now) w ->
  StronglySorted recent_first (documents (app w)).
Proof.
  apply (reachable_invariant
           (fun w => StronglySorted recent_first (documents (app w)))).
  - rewrite mounted_documents.
    destruct (getDocuments s); [apply JSFacts.sort_sorted|constructor].
  - intros a w' IH.
    destruct (perform_documents a w') as [-> | [docs ->]];
      [exact IH|apply JSFacts.sort_sorted].
  - intros rd result w' [Hrd|Hrd] IH; rewrite Hrd; exact IH.
Qed.

(** Only deleting, creating and uploading write to the store. *)
Theorem store_written_only_by_mutations (a : Action) (w : World) :
  writes_store a = false ->
  store (perform a w) = store w.
Proof.
  destruct a; cbn [writes_store]; intros Hw; try discriminate Hw;
    unfold perform, run_timers; run_all; outcomes; reflexivity.
Qed.
End Invariants.

Section Handles.
Context {storage : StorageService} {pdf : JsPDF}.

Let handles_ok (w : World) : Prop := handles_scheduled w /\ timers_known w.

Lemma handles_frame (w w' : World) :
  objectURLs w' = objectURLs w ->
  timers w' = timers w ->
  nextURL w' = nextURL w ->
  handles_ok w -> handles_ok w'.
Proof.
  unfold handles_ok, handles_scheduled, timers_known, live.
  intros -> -> ->. auto.
Qed.

Lemma openDoc_shape (env : Env) (doc : PDFDocument) (w : World) :
  exists tr,
    snd (openDoc env doc w)
    = mkWorld (app w) (store w) tr (clock w)
        (objectURLs w ++ [(nextURL w, data doc)])
        (S (nextURL w))
        (timers w ++ [mkTimer (clock w + 60000) (nextURL w)]).
Proof.
  run. destruct (env_popup env); cbn; eexists; reflexivity.
Qed.

Lemma openDoc_handles (env : Env) (doc : PDFDocument) (w : World) :
  handles_ok w -> handles_ok (snd (openDoc env doc w)).
Proof.
  intros [Hsched Hknown].
  destruct (openDoc_shape env doc w) as [tr ->].
  split.
  - intros u. unfold live. cbn. rewrite existsb_app. cbn.
    rewrite orb_false_r. intros Hlive.
    apply orb_prop in Hlive as [Hold|Hnew].
    + destruct (Hsched u Hold) as (tm & Hin & Hrev).
      exists tm. split; [apply in_or_app; now left|exact Hrev].
    + apply Nat.eqb_eq in Hnew. subst u.
      exists (mkTimer (clock w + 60000) (nextURL w)).
      split; [apply in_or_app; right; now left|reflexivity].
  - intros tm. cbn. intros Hin.
    apply in_app_or in Hin as [Hin|[<-|[]]].
    + specialize (Hknown tm Hin). lia.
    + cbn. lia.
Qed.

Lemma run_timers_handles (t : Z) (w : World) :
  handles_ok w -> handles_ok (run_timers t w).
Proof.
  intros [Hsched Hknown]. split.
  - intros u. unfold live, run_timers. cbn. intros Hlive.
    apply existsb_exists in Hlive as ([v b] & Hin & Heq).
    apply filter_In in Hin as [Hin Hkeep].
    cbn in Heq, Hkeep. apply Nat.eqb_eq in Heq. subst v.
    assert (Hu : live u w = true).
    { apply existsb_exists. exists (u, b).
      split; [exact Hin|apply Nat.eqb_refl]. }
    destruct (Hsched u Hu) as (tm & Htm & Hrev).
    exists tm. split; [|exact Hrev].
    apply filter_In. split; [exact Htm|].
    destruct (due tm <=? t)%Z eqn:Hdue; [|reflexivity].
    exfalso. apply negb_true_iff in Hkeep.
    assert (Hfired : revoked_by
                       (filter (fun tm => (due tm <=? t)%Z) (timers w)) u
                     = true).
    { apply existsb_exists. exists tm. split.
      - apply filter_In. now split.
      - rewrite Hrev. apply Nat.eqb_refl. }
    congruence.
  - intros tm. unfold run_timers. cbn. intros Hin.
    apply filter_In in Hin as [Hin _]. now apply Hknown.
Qed.

Lemma perform_handles (a : Action) (w : World) :
  handles_ok w -> handles_ok (perform a w).
Proof.
  intros Hok.
  destruct a; unfold perform;
    try (now apply openDoc_handles); try (now apply run_timers_handles);
    (apply (handles_frame w); [| | |exact Hok]);
    run_all; outcomes; reflexivity.
Qed.

(** In every world the mounted component can reach, each live object URL
    has a timer queued to revoke it, and no queued timer names a URL that is
    yet to be created; so once the event loop has passed the last timer, no
    object URL is left. *)
Theorem handles_always_scheduled (prefersDark : bool) (s : Store) (now : Z)
    (w : World) :
  reachable (mounted prefersDark s now) w ->
  handles_scheduled w /\
  timers_known w /\
  (forall t, (forall tm, In tm (timers w) -> (due tm <= t)%Z) ->
             objectURLs (run_timers t w) = []).
Proof.
  intros Hreach.
  assert (Hok : handles_ok w).
  { revert Hreach. apply (reachable_invariant handles_ok).
    - unfold mounted. run_all.
      destruct (getDocuments s); destruct prefersDark; cbn;
        (split; [intros u Hu; discriminate Hu|intros tm []]).
    - intros a w'. apply perform_handles.
    - intros rd result w' [Hrd|Hrd] Hok; rewrite Hrd;
        apply (handles_frame w'); auto. }
  destruct Hok as [Hsched Hknown].
  split; [exact Hsched|]. split; [exact Hknown|].
  intros t Hdue. unfold run_timers. cbn.
  assert (Hall : filter (fun tm => (due tm <=? t)%Z) (timers w) = timers w).
  { apply forallb_filter_id. apply forallb_forall.
    intros tm Hin. apply Z.leb_le. now apply Hdue. }
  rewrite Hall.
  assert (Hnone : forall l : list (ObjectURL * ArrayBuffer),
             (forall e, In e l -> live (fst e) w = true) ->
             filter (fun e => negb (revoked_by (timers w) (fst e))) l = []).
  { induction l as [|e l IHl]; intros Hl; [reflexivity|].
    cbn.
    destruct (Hsched (fst e) (Hl e (or_introl eq_refl)))
      as (tm & Htm & Hrev).
    assert (Hr : revoked_by (timers w) (fst e) = true).
    { apply existsb_exists. exists tm. split; [exact Htm|].
      rewrite Hrev. apply Nat.eqb_refl. }
    rewrite Hr. cbn. apply IHl. intros e' He'. apply Hl. now right. }
  apply Hnone. intros e He. apply existsb_exists. exists e.
  split; [exact He|apply Nat.eqb_refl].
Qed.
End Handles.

Section Validation.
Context {storage : StorageService} {pdf : JsPDF}.

Lemma not_blank (s : jsstring) :
  JS.trim s <> [] <-> forallb JS.isWhiteSpace s = false.
Proof.
  pose proof (JSFacts.trim_blank s) as H.
  destruct (forallb JS.isWhiteSpace s); split; intros H'.
  - exfalso. apply H'. now apply H.
  - discriminate H'.
  - reflexivity.
  - intros E. apply H in E. discriminate E.
Qed.

(** [handleCreatePDF] calls the factory exactly when neither the title nor
    the content consists of white space only (the empty string included),
    and it passes both as typed, not trimmed. *)
Theorem factory_called_iff_not_blank (env : Env) (w : World) :
  ((exists t c,
       In (EvCreatePDF t c) (emitted w (snd (handleCreatePDF env w)))) <->
   forallb JS.isWhiteSpace (creatorTitle (app w)) = false /\
   forallb JS.isWhiteSpace (creatorContent (app w)) = false) /\
  (forall t c,
      In (EvCreatePDF t c) (emitted w (snd (handleCreatePDF env w))) ->
      t = creatorTitle (app w) /\ c = creatorContent (app w)).
Proof.
  rewrite <- !not_blank.
  run.
  destruct (JS.trim (creatorTitle (app w))) eqn:Et;
    destruct (JS.trim (creatorContent (app w))) eqn:Ec; cbn.
  1-3: traces; split;
    [split;
     [intros (t & c & [H|[]]); discriminate H
     |intros [H1 H2]; congruence]
    |intros t c [H|[]]; discriminate H].
  outcomes; traces; (split; [split|]).
  all: try (intros _; split; discriminate).
  all: try (intros _; do 2 eexists; left; reflexivity).
  all: intros t c Hin; simpl in Hin;
    repeat match goal with
           | H : _ \/ _ |- _ => destruct H
           | H : False |- _ => destruct H
           | H : EvCreatePDF _ _ = EvCreatePDF _ _ |- _ =>
               injection H as <- <-
           | H : _ = EvCreatePDF _ _ |- _ => discriminate H
           end; auto.
Qed.
End Validation.


(* ================================================================= *)
(** ** The further properties at concrete inputs *)

Module ExtraWitness.

Import Sample SampleMore.

Lemma deleteDoc_declined_witness :
  env_confirm declining = false /\
  deleteDoc declining (JS.lit "b") (world initialState shelf)
  = (Ok tt,
     log (EvConfirm "Tem certeza que deseja excluir este PDF?")
       (world initialState shelf)).
Proof.
  split; [reflexivity|].
  apply (deleteDoc_declined declining (JS.lit "b")
           (world initialState shelf)).
  reflexivity.
Defined.

Lemma deleteDoc_failure_witness :
  env_confirm env = true /\
  deleteDocument (JS.lit "b") (store (offlineWorld initialState))
    = Throw StorageUnavailable /\
  fst (deleteDoc env (JS.lit "b") (offlineWorld initialState))
    = Throw StorageUnavailable.
Proof.
  split; [reflexivity|]. split; [reflexivity|].
  exact (proj1 (deleteDoc_failure env (JS.lit "b")
                  (offlineWorld initialState) StorageUnavailable
                  eq_refl eq_refl)).
Defined.

Lemma confirmUpload_failure_keeps_form_witness :
  uploadFile (app (uploadWorld unreadable)) = Some unreadable /\
  file_arrayBuffer unreadable = Throw NotReadable /\
  app (snd (confirmUpload env (uploadWorld unreadable)))
    = setIsProcessing false (app (uploadWorld unreadable)).
Proof.
  split; [reflexivity|]. split; [reflexivity|].
  exact (proj1 (proj2
           (confirmUpload_failure_keeps_form env (uploadWorld unreadable)
              unreadable NotReadable eq_refl (or_introl eq_refl)))).
Defined.

Lemma confirmUpload_success_resets_form_witness :
  uploadFile (app (uploadWorld pdfFile)) = Some pdfFile /\
  file_arrayBuffer pdfFile = Ok [Byte.x25; Byte.x50; Byte.x44] /\
  saveDocument uploadedPdf (store (uploadWorld pdfFile))
    = Ok (MemStore.mk [uploadedPdf] true 1000) /\
  uploadFile (app (snd (confirmUpload env (uploadWorld pdfFile)))) = None.
Proof.
  split; [reflexivity|]. split; [reflexivity|]. split; [reflexivity|].
  exact (proj1 (proj2
           (confirmUpload_success_resets_form env (uploadWorld pdfFile)
              pdfFile [Byte.x25; Byte.x50; Byte.x44]
              (MemStore.mk [uploadedPdf] true 1000)
              eq_refl eq_refl eq_refl))).
Defined.

Lemma handleCreatePDF_success_witness :
  JS.trim (creatorTitle (app notesWorld)) <> [] /\
  JS.trim (creatorContent (app notesWorld)) <> [] /\
  createPDF (env_ambient env) (creatorTitle (app notesWorld))
    (creatorContent (app notesWorld)) = Ok (data createdNotes) /\
  saveDocument createdNotes (store notesWorld)
    = Ok (MemStore.mk [createdNotes] true 1000) /\
  viewMode (app (snd (handleCreatePDF env notesWorld))) = library /\
  creatorTitle (app (snd (handleCreatePDF env notesWorld))) = [].
Proof.
  assert (H1 : JS.trim (creatorTitle (app notesWorld)) <> [])
    by (vm_compute; discriminate).
  assert (H2 : JS.trim (creatorContent (app notesWorld)) <> [])
    by (vm_compute; discriminate).
  split; [exact H1|]. split; [exact H2|].
  split; [reflexivity|]. split; [reflexivity|].
  destruct (handleCreatePDF_success env notesWorld (data createdNotes)
              (MemStore.mk [createdNotes] true 1000) H1 H2 eq_refl eq_refl)
    as (_ & Ht & _ & _ & Hv & _).
  split; [exact Hv|exact Ht].
Defined.

Lemma handleCreatePDF_save_failure_witness :
  JS.trim (creatorTitle (app (offlineWorld (creating "Notes" "Hello world"))))
    <> [] /\
  JS.trim
    (creatorContent (app (offlineWorld (creating "Notes" "Hello world"))))
    <> [] /\
  saveDocument createdNotes
    (store (offlineWorld (creating "Notes" "Hello world")))
    = Throw StorageUnavailable /\
  app (snd (handleCreatePDF env
              (offlineWorld (creating "Notes" "Hello world"))))
    = app (offlineWorld (creating "Notes" "Hello world")).
Proof.
  assert (H1 : JS.trim (creatorTitle
                          (app (offlineWorld (creating "Notes" "Hello world"))))
               <> [])
    by (vm_compute; discriminate).
  assert (H2 : JS.trim (creatorContent
                          (app (offlineWorld (creating "Notes" "Hello world"))))
               <> [])
    by (vm_compute; discriminate).
  split; [exact H1|]. split; [exact H2|]. split; [reflexivity|].
  exact (proj1 (proj2
           (handleCreatePDF_save_failure env
              (offlineWorld (creating "Notes" "Hello world"))
              (data createdNotes) StorageUnavailable H1 H2 eq_refl
              eq_refl))).
Defined.

Lemma loadDocuments_keeps_store_order_on_ties_witness :
  getDocuments (store (world initialState tiedShelf))
    = Ok [doc "b" 10; doc "c" 30; doc "a" 10] /\
  filter (fun d => (addedAt d =? 10)%Z)
    (documents (app (snd (loadDocuments (world initialState tiedShelf)))))
    = [doc "b" 10; doc "a" 10].
Proof.
  split; [reflexivity|].
  exact (loadDocuments_keeps_store_order_on_ties
           (world initialState tiedShelf) _ 10%Z eq_refl).
Defined.

Lemma loadDocuments_keeps_sorted_listing_witness :
  getDocuments (store (world initialState sortedShelf))
    = Ok [doc "c" 30; doc "b" 20; doc "a" 10] /\
  StronglySorted recent_first [doc "c" 30; doc "b" 20; doc "a" 10] /\
  documents (app (snd (loadDocuments (world initialState sortedShelf))))
    = [doc "c" 30; doc "b" 20; doc "a" 10].
Proof.
  assert (Hs : StronglySorted recent_first
                 [doc "c" 30; doc "b" 20; doc "a" 10]).
  { repeat constructor; unfold recent_first; simpl; lia. }
  split; [reflexivity|]. split; [exact Hs|].
  exact (loadDocuments_keeps_sorted_listing
           (world initialState sortedShelf) _ eq_refl Hs).
Defined.

Lemma loadDocuments_failure_is_silent_witness :
  getDocuments (store (offlineWorld initialState))
    = Throw StorageUnavailable /\
  app (snd (loadDocuments (offlineWorld initialState)))
    = app (offlineWorld initialState).
Proof.
  split; [reflexivity|].
  exact (proj1 (proj2
           (loadDocuments_failure_is_silent (offlineWorld initialState)
              StorageUnavailable eq_refl))).
Defined.

Lemma reselected_file_keeps_first_name_witness :
  uploadName (app (world (setShowUploadModal true initialState) emptyStore))
    = [] /\
  JS.replace (JS.lit ".pdf") [] (file_name pdfFile) <> [] /\
  In (EvSaveDocument reselectedDoc)
    (emitted reselected (snd (confirmUpload env reselected))) /\
  name reselectedDoc = JS.lit "a.b.pdf" /\
  data reselectedDoc = [Byte.x26].
Proof.
  assert (H2 : JS.replace (JS.lit ".pdf") [] (file_name pdfFile) <> [])
    by (vm_compute; discriminate).
  assert (H3 : In (EvSaveDocument reselectedDoc)
                 (emitted reselected (snd (confirmUpload env reselected))))
    by (vm_compute; left; reflexivity).
  split; [reflexivity|]. split; [exact H2|]. split; [exact H3|].
  destruct (reselected_file_keeps_first_name env
              (world (setShowUploadModal true initialState) emptyStore)
              pdfFile secondFile reselectedDoc eq_refl H2 H3)
    as (Hn & _).
  split; [rewrite Hn; reflexivity|reflexivity].
Defined.

Lemma late_cover_carried_to_next_upload_witness :
  uploadFile (app coveredUpload) = Some pdfFile /\
  file_arrayBuffer pdfFile = Ok [Byte.x25; Byte.x50; Byte.x44] /\
  saveDocument coveredPdf (store coveredUpload)
    = Ok (MemStore.mk [coveredPdf] true 1000) /\
  In (EvSaveDocument nextDoc)
    (emitted nextUpload (snd (confirmUpload declining nextUpload))) /\
  coverImage nextDoc = None /\
  fst (handleUploadCoverSelect (Some [coverFile]) coveredUpload)
    = Ok (Some coverReading) /\
  In (EvSaveDocument lateDoc)
    (emitted lateUpload (snd (confirmUpload declining lateUpload))) /\
  coverImage lateDoc = Some dataURL.
Proof.
  assert (Hrd : fst (handleUploadCoverSelect (Some [coverFile])
                       coveredUpload)
                = Ok (Some coverReading))
    by reflexivity.
  destruct (late_cover_carried_to_next_upload env coveredUpload pdfFile
              [Byte.x25; Byte.x50; Byte.x44]
              (MemStore.mk [coveredPdf] true 1000)
              eq_refl eq_refl eq_refl) as [Hnext Hlate].
  split; [reflexivity|]. split; [reflexivity|]. split; [reflexivity|].
  split; [vm_compute; left; reflexivity|].
  split.
  { refine (proj1 (Hnext secondFile [] declining nextDoc _)).
    vm_compute. left. reflexivity. }
  split; [exact Hrd|].
  split; [vm_compute; left; reflexivity|].
  refine (proj1 (Hlate coverFile [] coverReading (Some dataURL) secondFile []
                   declining lateDoc Hrd _)).
  vm_compute. left. reflexivity.
Defined.

Lemma started_can_open : enabled (ActOpenDoc env (doc "c" 30)) (app started).
Proof. split; [reflexivity|]. vm_compute. left. reflexivity. Qed.

Lemma opened_reachable : reachable (pdf := PlainPDF.lib) started opened.
Proof.
  exists (started_by (ActOpenDoc env (doc "c" 30)) started ++ []).
  apply run_action; [apply run_start|apply started_can_open].
Qed.

Lemma cache_always_most_recent_first_witness :
  reachable (pdf := PlainPDF.lib) started opened /\
  StronglySorted recent_first (documents (app opened)).
Proof.
  split; [exact opened_reachable|].
  exact (cache_always_most_recent_first (storage := MemStore.service)
           false shelf 1000 opened
           opened_reachable).
Defined.

Lemma store_written_only_by_mutations_witness :
  writes_store (ActOpenDoc env (doc "c" 30)) = false /\
  store opened = store started.
Proof.
  split; [reflexivity|].
  exact (store_written_only_by_mutations (ActOpenDoc env (doc "c" 30))
           started eq_refl).
Defined.

Lemma handles_always_scheduled_witness :
  reachable (pdf := PlainPDF.lib) started opened /\
  live 0 opened = true /\
  (forall tm, In tm (timers opened) -> (due tm <= 61000)%Z) /\
  objectURLs (run_timers 61000 opened) = [].
Proof.
  assert (Hdue : forall tm, In tm (timers opened) -> (due tm <= 61000)%Z).
  { intros tm [<-|[]]. vm_compute. discriminate. }
  split; [exact opened_reachable|]. split; [reflexivity|].
  split; [exact Hdue|].
  exact (proj2 (proj2 (handles_always_scheduled (storage := MemStore.service)
           false shelf 1000 opened
                         opened_reachable)) 61000%Z Hdue).
Defined.
End ExtraWitness.
